(** * FünfMinutenLicht.js: BTHome decoding and packet admission

    A shallow embedding of the Shelly script [FünfMinutenLicht.js]: the
    BTHome service-data decoder ([BTHomeDecoder]), the duplicate filter of
    [BLEScanCallback], the address filter and handler dispatch of
    [onReceivedPacket], and the address normalisation of [init].

    Script strings are byte strings; they are modelled by [string], one
    [ascii] per byte.  Numbers are modelled by [Z] where the script keeps
    them integral (bytes, bit operations, packet ids) and by binary64
    values ([spec_float]) where a field is multiplied by its factor. *)

From Stdlib Require Import ZArith List String Ascii Bool Lia.
From Stdlib Require Import SpecFloat.
Import ListNotations.

Local Open Scope string_scope.
Local Open Scope list_scope.
Local Open Scope Z_scope.

(** ** The script language's values and operators *)

Module JS.

(** Values that reach the variables of the script. *)
Inductive value : Type :=
| Undefined
| Null
| Bool (b : bool)
| Int (z : Z)
| Float (x : spec_float)
| Str (s : string).

(** Binary64: 53 bits of precision, exponents below 1024. *)
Definition prec : Z := 53.
Definition emax : Z := 1024.

(** The binary64 value of an integer (rounded to nearest, ties to even). *)
Definition of_int (z : Z) : spec_float := binary_normalize prec emax z 0 false.

(** [a * b] for an integral [a] and a binary64 [b]. *)
Definition mul (a : Z) (b : spec_float) : spec_float :=
  SFmul prec emax (of_int a) b.

(** [f] is a binary64 nearest to the decimal literal [num/den]: this is
    how a literal such as [0.01] is read. *)
Definition nearest (num den : Z) (x : spec_float) : Prop :=
  match x with
  | S754_finite false m e =>
      Z.pos (digits2_pos m) = prec /\ e < 0 /\
      2 * Z.abs (den * Z.pos m - num * 2 ^ (- e)) <= den
  | _ => False
  end.

(** [v * x] for a binary64 factor [x].  The script multiplies only what
    [getBufValue] returned, a number; [undefined] converts to NaN, [null]
    to 0, a boolean to 0 or 1.  Strings are never multiplied and are not
    parsed here. *)
Definition times (v : value) (x : spec_float) : value :=
  match v with
  | Int z => Float (mul z x)
  | Float y => Float (SFmul prec emax y x)
  | Bool b => Float (mul (if b then 1 else 0) x)
  | Null => Float (mul 0 x)
  | Undefined | Str _ => Float S754_nan
  end.

(** ToInt32: wrap an integer into the signed 32-bit range. *)
Definition to_int32 (z : Z) : Z := (z + 2 ^ 31) mod 2 ^ 32 - 2 ^ 31.

(** ToInt32 of a number that may be [undefined] ([None]): [undefined]
    converts to 0. *)
Definition ToInt32 (v : option Z) : Z :=
  match v with
  | Some z => to_int32 z
  | None => 0
  end.

(** [a << b], [a >> b], [a & b], [a | b] on 32-bit integers. *)
Definition shl (a b : Z) : Z := to_int32 (Z.shiftl (to_int32 a) (Z.land b 31)).
Definition shr (a b : Z) : Z := Z.shiftr (to_int32 a) (Z.land b 31).
Definition and (a b : Z) : Z := Z.land (to_int32 a) (to_int32 b).
Definition or (a b : Z) : Z := Z.lor (to_int32 a) (to_int32 b).

(** [s.length] *)
Definition length (s : string) : Z := Z.of_nat (String.length s).

(** [s.at( i )]: the byte at position [i] as a number; [undefined]
    ([None]) outside the string. *)
Definition at_ (s : string) (i : nat) : option Z :=
  match String.get i s with
  | Some c => Some (Z.of_N (N_of_ascii c))
  | None => None
  end.

Fixpoint drop (k : nat) (s : string) : string :=
  match k, s with
  | O, _ => s
  | S _, EmptyString => EmptyString
  | S k', String _ s' => drop k' s'
  end.

(** [s.slice( start )]: a negative [start] counts from the end. *)
Definition slice (start : Z) (s : string) : string :=
  let from := if start <? 0 then Z.max (length s + start) 0 else start in
  drop (Z.to_nat from) s.

(** [s.toLowerCase()] on the letters A to Z; other bytes are kept. *)
Definition lower_ascii (c : ascii) : ascii :=
  let k := N_of_ascii c in
  if ((65 <=? k) && (k <=? 90))%N then ascii_of_N (k + 32) else c.

Fixpoint toLowerCase (s : string) : string :=
  match s with
  | EmptyString => EmptyString
  | String c s' => String (lower_ascii c) (toLowerCase s')
  end.

(** [a === b]; an integral and a binary64 number are compared as
    binary64 values. *)
Definition strict_eq (a b : value) : bool :=
  match a, b with
  | Undefined, Undefined => true
  | Null, Null => true
  | Bool x, Bool y => Bool.eqb x y
  | Int x, Int y => x =? y
  | Int x, Float y => SFeqb (of_int x) y
  | Float x, Int y => SFeqb x (of_int y)
  | Float x, Float y => SFeqb x y
  | Str x, Str y => String.eqb x y
  | _, _ => false
  end.

(** [a < b] for a value [a] and a number [b]: [a] is converted to a
    number first.  [undefined] converts to NaN, which compares false;
    [null] converts to 0, [false] to 0 and [true] to 1.  A string would go
    through the runtime's number parser, which is not modelled: the
    properties below that compare a value leave strings out. *)
Definition lt_num (a : value) (b : Z) : bool :=
  match a with
  | Int x => x <? b
  | Float x => SFltb x (of_int b)
  | Null => 0 <? b
  | Bool t => (if t then 1 else 0) <? b
  | Undefined => false
  | Str _ => false
  end.

(** [typeof v === "undefined"] *)
Definition is_undefined (v : value) : bool :=
  match v with
  | Undefined => true
  | _ => false
  end.

(** Truthiness, as tested by [if] and [?:]. *)
Definition truthy (v : value) : bool :=
  match v with
  | Undefined | Null => false
  | Bool b => b
  | Int z => negb (z =? 0)
  | Float x =>
      match x with
      | S754_zero _ | S754_nan => false
      | _ => true
      end
  | Str s => negb (String.eqb s "")
  end.

(** An object: its own properties in insertion order. *)
Definition object : Type := list (string * value).

(** [o[k]], [undefined] when [o] has no property [k]. *)
Fixpoint get (o : object) (k : string) : value :=
  match o with
  | [] => Undefined
  | (k', v) :: o' => if String.eqb k' k then v else get o' k
  end.

(** [o[k] = v]: an existing property keeps its place, a new one is
    appended. *)
Fixpoint set (o : object) (k : string) (v : value) : object :=
  match o with
  | [] => [(k, v)]
  | (k', v') :: o' =>
      if String.eqb k' k then (k', v) :: o' else (k', v') :: set o' k v
  end.

(** [a.indexOf( x )] on an array of strings, by [===]. *)
Fixpoint indexOf_from (a : list string) (x : value) (i : Z) : Z :=
  match a with
  | [] => -1
  | y :: a' => if strict_eq (Str y) x then i else indexOf_from a' x (i + 1)
  end.

Definition indexOf (a : list string) (x : value) : Z := indexOf_from a x 0.

(** [a.filter( function( value, index, array ) { ... } )]: the callback
    sees the element, its index and the whole array. *)
Fixpoint filter_from (p : string -> Z -> bool) (a : list string) (i : Z)
  : list string :=
  match a with
  | [] => []
  | y :: a' =>
      if p y i then y :: filter_from p a' (i + 1) else filter_from p a' (i + 1)
  end.

Definition filter (p : string -> Z -> list string -> bool) (a : list string)
  : list string :=
  filter_from (fun y i => p y i a) a 0.

End JS.

(** ** Field types and the BTHome table *)

Definition uint8 : Z := 0.
Definition int8 : Z := 1.
Definition uint16 : Z := 2.
Definition int16 : Z := 3.
Definition uint24 : Z := 4.
Definition int24 : Z := 5.

(** The factors [0.01] and [0.1] as binary64 values. *)
Definition factor_0_01 : spec_float := S754_finite false 0x147ae147ae147b (-59).
Definition factor_0_1 : spec_float := S754_finite false 0x1999999999999a (-56).

Module Field.
(** One entry of [BTH]: name, type, optional factor, optional unit. *)
Record entry : Type := Entry {
  n : string;
  t : Z;
  f : option spec_float;
  u : option string
}.
End Field.

Definition BTH : list (Z * Field.entry) :=
  [ (0x00, Field.Entry "pid" uint8 None None);
    (0x01, Field.Entry "battery" uint8 None (Some "%"));
    (0x02, Field.Entry "temperature" int16 (Some factor_0_01) (Some "tC"));
    (0x03, Field.Entry "humidity" uint16 (Some factor_0_01) (Some "%"));
    (0x05, Field.Entry "illuminance" uint24 (Some factor_0_01) None);
    (0x21, Field.Entry "motion" uint8 None None);
    (0x2d, Field.Entry "window" uint8 None None);
    (0x3a, Field.Entry "button" uint8 None None);
    (0x3f, Field.Entry "rotation" int16 (Some factor_0_1) None) ].

(** [BTH [k]]: [None] stands for [undefined]. *)
Fixpoint lookup (tbl : list (Z * Field.entry)) (k : Z) : option Field.entry :=
  match tbl with
  | [] => None
  | (k', e) :: tbl' => if k' =? k then Some e else lookup tbl' k
  end.

Definition getByteSize (type : Z) : Z :=
  if (type =? uint8) || (type =? int8) then 1
  else if (type =? uint16) || (type =? int16) then 2
  else if (type =? uint24) || (type =? int24) then 3
  else 255.

(** ** The decoder's integer readers *)

Module BTHomeDecoder.

(** [num & mask ? num - (1 << bitsz) : num].  An [undefined] [num]
    makes the test 0, so the subtraction only sees numbers. *)
Definition utoi (num : option Z) (bitsz : Z) : option Z :=
  let mask := JS.shl 1 (bitsz - 1) in
  if negb (JS.and (JS.ToInt32 num) mask =? 0)
  then option_map (fun v => v - JS.shl 1 bitsz) num
  else num.

Definition getUInt8 (buffer : string) : option Z := JS.at_ buffer 0.

Definition getInt8 (buffer : string) : option Z := utoi (getUInt8 buffer) 8.

Definition getUInt16LE (buffer : string) : Z :=
  JS.and 0xffff
    (JS.or (JS.shl (JS.ToInt32 (JS.at_ buffer 1)) 8)
           (JS.ToInt32 (JS.at_ buffer 0))).

Definition getInt16LE (buffer : string) : option Z :=
  utoi (Some (getUInt16LE buffer)) 16.

Definition getUInt24LE (buffer : string) : Z :=
  JS.and 0x00ffffff
    (JS.or (JS.or (JS.shl (JS.ToInt32 (JS.at_ buffer 2)) 16)
                  (JS.shl (JS.ToInt32 (JS.at_ buffer 1)) 8))
           (JS.ToInt32 (JS.at_ buffer 0))).

Definition getInt24LE (buffer : string) : option Z :=
  utoi (Some (getUInt24LE buffer)) 24.

(** A number or [undefined] as a value. *)
Definition number (v : option Z) : JS.value :=
  match v with
  | Some z => JS.Int z
  | None => JS.Undefined
  end.

Definition getBufValue (type : Z) (buffer : string) : JS.value :=
  if JS.length buffer <? getByteSize type then JS.Null
  else
    let res := JS.Null in
    let res := if type =? uint8 then number (getUInt8 buffer) else res in
    let res := if type =? int8 then number (getInt8 buffer) else res in
    let res := if type =? uint16 then JS.Int (getUInt16LE buffer) else res in
    let res := if type =? int16 then number (getInt16LE buffer) else res in
    let res := if type =? uint24 then JS.Int (getUInt24LE buffer) else res in
    let res := if type =? int24 then number (getInt24LE buffer) else res in
    res.

End BTHomeDecoder.

(** ** Configuration, console and host calls *)

Module Config.
(** [allowedMacAddresses] and [_processedMacAddresses]: not set
    ([undefined]), [null], or an array of strings. *)
Inductive addresses : Type :=
| NotSet
| NoFilter
| Array (l : list string).

Record t : Type := Make {
  debug : bool;
  active : bool;
  allowedMacAddresses : addresses;
  illuThreshold : Z;
  _processedMacAddresses : addresses
}.
End Config.

(** The configuration as the script declares it; [init] adds
    [_processedMacAddresses]. *)
Definition CONFIG : Config.t :=
  {| Config.debug := true;
     Config.active := false;
     Config.allowedMacAddresses := Config.Array ["b0:c7:de:3b:29:15"];
     Config.illuThreshold := 15;
     Config._processedMacAddresses := Config.NotSet |}.

(** What [logger] is given as its message: one value or an array. *)
Inductive message : Type :=
| Text (s : string)
| Items (l : list JS.value).

(** What the script does to its host.  [ConsoleLog] stands for
    [console.log( prefix, finalText )] of [logger], with the message kept
    as given instead of its JSON text; [ConsolePrint] for the other
    [console.log] calls. *)
Inductive effect : Type :=
| ConsoleLog (prefix : string) (msg : message)
| ConsolePrint (text : string)
| ShellyCall (method : string) (params : JS.object)
| ScannerStart (active : bool)
| ScannerSubscribe.

Definition logger (cfg : Config.t) (msg : message) (prefix : JS.value)
  : list effect :=
  if negb (Config.debug cfg) then []
  else
    let prefix :=
      match prefix with
      | JS.Str p => (p ++ ":")%string
      | _ => ""
      end in
    [ConsoleLog prefix msg].

(** The three handlers of [CONFIG]; each is a function, so the
    [typeof ... === "function"] tests of [onReceivedPacket] hold. *)
Definition motionHandler (cfg : Config.t) (motion : bool)
  (eventData : JS.object) : list effect :=
  if motion &&
     JS.lt_num (JS.get eventData "illuminance") (Config.illuThreshold cfg)
  then logger cfg (Text "Light switched on") (JS.Str "Info")
       ++ [ShellyCall "Switch.Set" [("id", JS.Int 0); ("on", JS.Bool true)]]
  else [].

Definition illuminanceHandler (cfg : Config.t) (illuminance : JS.value)
  (eventData : JS.object) : list effect := [].

Definition onStatusUpdate (cfg : Config.t) (eventData : JS.object)
  : list effect := [].

(** ** The record decoder *)

(** One pass through the body of the [while] loop of [unpack]: the loop is
    left by [break], or goes on with a shorter buffer and a larger
    result. *)
Inductive iteration : Type :=
| Break (log : list effect)
| Next (buffer : string) (result : JS.object).

Definition unpack_body (cfg : Config.t) (buffer : string) (result : JS.object)
  : iteration :=
  let _bth :=
    match JS.at_ buffer 0 with
    | Some k => lookup BTH k
    | None => None
    end in
  match _bth with
  | None => Break (logger cfg (Text "unknown type") (JS.Str "BTH"))
  | Some _bth =>
      let buffer := JS.slice 1 buffer in
      let _value := BTHomeDecoder.getBufValue (Field.t _bth) buffer in
      if JS.strict_eq _value JS.Null then Break []
      else
        let _value :=
          match Field.f _bth with
          | Some factor => JS.times _value factor
          | None => _value
          end in
        let result := JS.set result (Field.n _bth) _value in
        Next (JS.slice (getByteSize (Field.t _bth)) buffer) result
  end.

(** The [while( buffer.length > 0 )] loop, run for at most [fuel]
    iterations; [None] when they do not suffice. *)
Fixpoint unpack_while (cfg : Config.t) (fuel : nat) (buffer : string)
  (result : JS.object) : option (JS.object * list effect) :=
  if 0 <? JS.length buffer then
    match fuel with
    | O => None
    | S fuel' =>
        match unpack_body cfg buffer result with
        | Break log => Some (result, log)
        | Next buffer' result' => unpack_while cfg fuel' buffer' result'
        end
    end
  else Some (result, []).

(** [BTHomeDecoder.unpack]: the returned value ([None] for [null]) and what
    was logged.  The loop is given one iteration per byte. *)
Definition unpack (cfg : Config.t) (buffer : JS.value)
  : option (option JS.object * list effect) :=
  match buffer with
  | JS.Str buffer =>
      if JS.length buffer =? 0 then Some (None, [])
      else
        let result : JS.object := [] in
        let _dib := JS.at_ buffer 0 in
        let result :=
          JS.set result "encryption"
            (JS.Bool (negb (JS.and (JS.ToInt32 _dib) 0x1 =? 0))) in
        let result :=
          JS.set result "BTHome_version" (JS.Int (JS.shr (JS.ToInt32 _dib) 5)) in
        if negb (JS.strict_eq (JS.get result "BTHome_version") (JS.Int 2))
        then Some (None, [])
        else if JS.truthy (JS.get result "encryption")
        then Some (Some result, [])
        else
          let buffer := JS.slice 1 buffer in
          match unpack_while cfg (String.length buffer) buffer result with
          | Some (result, log) => Some (Some result, log)
          | None => None
          end
  | _ => Some (None, [])
  end.

(** A buffer from its bytes. *)
Definition bytes (l : list Z) : string :=
  string_of_list_ascii (map (fun z => ascii_of_N (Z.to_N z)) l).

(** ** Packet admission and dispatch *)

Definition ALLTERCO_MFD_ID_STR : string := "0ba9".
Definition BTHOME_SVC_ID_STR : string := "fcd2".

(** How [onReceivedPacket] ends: by the [return] of the address filter,
    after the handlers, or by the TypeError of calling [indexOf] on an
    [undefined] [_processedMacAddresses]. *)
Inductive received : Type :=
| Filtered
| Handled
| Threw.

Definition onReceivedPacket (cfg : Config.t) (data : JS.object)
  : received * list effect :=
  let dispatch :=
    (if negb (JS.is_undefined (JS.get data "motion"))
     then motionHandler cfg (JS.strict_eq (JS.get data "motion") (JS.Int 1)) data
          ++ logger cfg (Text "Motion handler called") (JS.Str "Info")
     else [])
    ++ (if negb (JS.is_undefined (JS.get data "illuminance"))
        then illuminanceHandler cfg (JS.get data "illuminance") data
             ++ logger cfg (Text "Illuminance handler called") (JS.Str "Info")
        else [])
    ++ onStatusUpdate cfg data
    ++ logger cfg (Text "New status update") (JS.Str "Info") in
  match Config._processedMacAddresses cfg with
  | Config.NoFilter => (Handled, dispatch)
  | Config.Array allowed =>
      if JS.indexOf allowed (JS.get data "address") <? 0
      then (Filtered,
            logger cfg
              (Items [JS.Str "Received event from"; JS.get data "address";
                      JS.Str "outside of the allowed addresses"])
              (JS.Str "Info"))
      else (Handled, dispatch)
  | Config.NotSet => (Threw, [])
  end.

(** The initial value of the global [lastPacketId]. *)
Definition lastPacketId : JS.value := JS.Int 0x100.

(** The scanner's events, and the result it passes with [SCAN_RESULT]. *)
Inductive scan_event : Type :=
| SCAN_START
| SCAN_STOP
| SCAN_RESULT.

Definition scan_event_eqb (a b : scan_event) : bool :=
  match a, b with
  | SCAN_START, SCAN_START | SCAN_STOP, SCAN_STOP
  | SCAN_RESULT, SCAN_RESULT => true
  | _, _ => false
  end.

Module Scan.
(** [service_data] is [None] when the member is missing. *)
Record result : Type := Result {
  addr : JS.value;
  rssi : JS.value;
  service_data : option JS.object
}.
End Scan.

(** The [return] by which [BLEScanCallback] ends, or how the call of
    [onReceivedPacket] in its last line ended. *)
Inductive exit : Type :=
| NotAScanResult
| NoServiceData
| Undecodable
| Duplicate
| Received (r : received).

(** [BLEScanCallback] as a function of the global [lastPacketId]: the new
    [lastPacketId], the exit taken and the effects; [None] only when
    [unpack] has none. *)
Definition BLEScanCallback (cfg : Config.t) (lastPacketId : JS.value)
  (event : scan_event) (result : Scan.result)
  : option (JS.value * exit * list effect) :=
  if negb (scan_event_eqb event SCAN_RESULT)
  then Some (lastPacketId, NotAScanResult, [])
  else
    match Scan.service_data result with
    | None => Some (lastPacketId, NoServiceData, [])
    | Some service_data =>
        if JS.is_undefined (JS.get service_data BTHOME_SVC_ID_STR)
        then Some (lastPacketId, NoServiceData, [])
        else
          match unpack cfg (JS.get service_data BTHOME_SVC_ID_STR) with
          | None => None
          | Some (None, log) =>
              Some (lastPacketId, Undecodable,
                    log ++ logger cfg (Text "Encrypted devices are not supported")
                             (JS.Str "Error"))
          | Some (Some unpackedData, log) =>
              if JS.truthy (JS.get unpackedData "encryption")
              then Some (lastPacketId, Undecodable,
                         log ++ logger cfg
                                  (Text "Encrypted devices are not supported")
                                  (JS.Str "Error"))
              else if JS.strict_eq lastPacketId (JS.get unpackedData "pid")
              then Some (lastPacketId, Duplicate, log)
              else
                let lastPacketId := JS.get unpackedData "pid" in
                let unpackedData :=
                  JS.set unpackedData "rssi" (Scan.rssi result) in
                let unpackedData :=
                  JS.set unpackedData "address" (Scan.addr result) in
                let '(r, effects) := onReceivedPacket cfg unpackedData in
                Some (lastPacketId, Received r, log ++ effects)
          end
    end.

(** A run of scan results through [BLEScanCallback], threading the global
    [lastPacketId]; the exits in order and the final [lastPacketId]. *)
Fixpoint scan (cfg : Config.t) (lastPacketId : JS.value)
  (results : list Scan.result) : option (list exit * JS.value) :=
  match results with
  | [] => Some ([], lastPacketId)
  | result :: results' =>
      match BLEScanCallback cfg lastPacketId SCAN_RESULT result with
      | None => None
      | Some (lastPacketId', e, _) =>
          match scan cfg lastPacketId' results' with
          | None => None
          | Some (es, final) => Some (e :: es, final)
          end
      end
  end.

(** ** Start-up *)

Module Host.
(** What the device answers during [init]: whether Bluetooth is enabled,
    whether a scanner already runs, whether a new one could be started. *)
Record t : Type := Make {
  ble_enable : bool;
  scanner_isRunning : bool;
  scanner_started : bool
}.
End Host.

(** The allow-list in lower case, first occurrences only. *)
Definition processMacAddresses (allowed : list string) : list string :=
  JS.filter (fun value index array => JS.indexOf array (JS.Str value) =? index)
    (map JS.toLowerCase allowed).

(** [init]: the configuration it leaves and what it does to the host.
    [CONFIG] is declared, so the first test of [init] does not fire; when
    Bluetooth is disabled [init] returns before it touches the allow-list
    or subscribes. *)
Definition init (host : Host.t) (cfg : Config.t) : Config.t * list effect :=
  if negb (Host.ble_enable host)
  then (cfg,
        [ConsolePrint
           "Error: The Bluetooth is not enabled, please enable it from settings"])
  else
    let scanner :=
      if Host.scanner_isRunning host
      then [ConsolePrint
              "Info: The BLE gateway is running, the BLE scan configuration is managed by the device"]
      else ScannerStart (Config.active cfg)
           :: (if negb (Host.scanner_started host)
               then [ConsolePrint "Error: Can not start new scanner"]
               else []) in
    let cfg :=
      match Config.allowedMacAddresses cfg with
      | Config.NotSet => cfg
      | Config.Array allowed =>
          {| Config.debug := Config.debug cfg;
             Config.active := Config.active cfg;
             Config.allowedMacAddresses := Config.allowedMacAddresses cfg;
             Config.illuThreshold := Config.illuThreshold cfg;
             Config._processedMacAddresses :=
               Config.Array (processMacAddresses allowed) |}
      | Config.NoFilter =>
          {| Config.debug := Config.debug cfg;
             Config.active := Config.active cfg;
             Config.allowedMacAddresses := Config.allowedMacAddresses cfg;
             Config.illuThreshold := Config.illuThreshold cfg;
             Config._processedMacAddresses := Config.NoFilter |}
      end in
    (cfg, scanner ++ [ScannerSubscribe]).

(** The configuration after a start-up that reached the end of [init]. *)
Definition started (cfg : Config.t) : Config.t :=
  fst (init (Host.Make true true true) cfg).

(** A scan result with BTHome service data [payload]. *)
Definition advert (address : string) (signal : Z) (payload : list Z)
  : Scan.result :=
  {| Scan.addr := JS.Str address;
     Scan.rssi := JS.Int signal;
     Scan.service_data := Some [(BTHOME_SVC_ID_STR, JS.Str (bytes payload))] |}.

(** The types read at each width, and a buffer's little-endian value. *)
Definition unsigned_type (width : nat) : Z :=
  match width with
  | 1%nat => uint8
  | 2%nat => uint16
  | _ => uint24
  end.

Definition signed_type (width : nat) : Z :=
  match width with
  | 1%nat => int8
  | 2%nat => int16
  | _ => int24
  end.

Definition byte_of (c : ascii) : Z := Z.of_N (N_of_ascii c).

Fixpoint le_value (buffer : string) : Z :=
  match buffer with
  | EmptyString => 0
  | String c rest => byte_of c + 256 * le_value rest
  end.

(** The header bytes that [unpack] decodes further: version 2, not
    encrypted. *)
Definition plain_v2 (header : ascii) : Prop :=
  Z.shiftr (byte_of header) 5 = 2 /\ Z.testbit (byte_of header) 0 = false.

(** The result of [unpack] after such a header byte. *)
Definition header_fields : JS.object :=
  [("encryption", JS.Bool false); ("BTHome_version", JS.Int 2)].

(** A byte sequence made of complete fields only: each a tag of [BTH]
    followed by as many bytes as its type takes. *)
Inductive fields : string -> Prop :=
| fields_nil : fields ""
| fields_cons (tag : ascii) (e : Field.entry) (value rest : string) :
    lookup BTH (byte_of tag) = Some e ->
    JS.length value = getByteSize (Field.t e) ->
    fields rest ->
    fields (String tag (value ++ rest)).

(** The decimal literal [1.09] as a binary64 value. *)
Definition literal_1_09 : spec_float := S754_finite false 0x1170a3d70a3d71 (-52).

(** What [unpack] stores for a field [e] whose bytes are [value]. *)
Definition field_value (e : Field.entry) (value : string) : JS.value :=
  let _value := BTHomeDecoder.getBufValue (Field.t e) value in
  match Field.f e with
  | Some factor => JS.times _value factor
  | None => _value
  end.

(** The scan result [result] carries BTHome service data that [unpack]
    decodes to the unencrypted object [data]. *)
Definition decodes (cfg : Config.t) (result : Scan.result) (data : JS.object)
  : Prop :=
  exists service_data log,
    Scan.service_data result = Some service_data /\
    JS.is_undefined (JS.get service_data BTHOME_SVC_ID_STR) = false /\
    unpack cfg (JS.get service_data BTHOME_SVC_ID_STR) = Some (Some data, log) /\
    JS.truthy (JS.get data "encryption") = false.

(** The address passes the filter of [onReceivedPacket]: there is no
    filter, or the address is a string of [_processedMacAddresses]. *)
Definition address_allowed (cfg : Config.t) (address : JS.value) : Prop :=
  match Config._processedMacAddresses cfg with
  | Config.NoFilter => True
  | Config.Array allowed => exists s, address = JS.Str s /\ In s allowed
  | Config.NotSet => False
  end.

(** The [pid] of an object is missing or a byte. *)
Definition pid_in_range (o : JS.object) : Prop :=
  JS.get o "pid" = JS.Undefined \/
  exists p, JS.get o "pid" = JS.Int p /\ 0 <= p <= 255.

(** A test encoder: the [width] low bytes of [v], least significant
    first; a negative [v] comes out in two's complement. *)
Fixpoint le_bytes (width : nat) (v : Z) : string :=
  match width with
  | O => EmptyString
  | S width' =>
      String (ascii_of_N (Z.to_N (v mod 256))) (le_bytes width' (v / 256))
  end.

(** The six field types. *)
Definition known_type (type : Z) : Prop := 0 <= type <= 5.

(** The property names of an object, and the field names of [BTH]. *)
Definition keys (o : JS.object) : list string := map fst o.

Definition BTH_names : list string := map (fun p => Field.n (snd p)) BTH.

(** What the decoding loop keeps true of its result. *)
Definition decoded (o : JS.object) : Prop :=
  JS.get o "encryption" = JS.Bool false /\
  JS.get o "BTHome_version" = JS.Int 2 /\
  NoDup (keys o) /\
  Forall (fun k => k = "encryption" \/ k = "BTHome_version" \/ In k BTH_names)
    (keys o).

(** The values [lastPacketId] takes: its initial value, [undefined], or a
    byte. *)
Definition packet_id (v : JS.value) : Prop :=
  v = lastPacketId \/ v = JS.Undefined \/
  exists p, v = JS.Int p /\ 0 <= p <= 255.

(** An exit of [BLEScanCallback] that reached [onReceivedPacket]. *)
Definition reached_handler (e : exit) : bool :=
  match e with
  | Received _ => true
  | _ => false
  end.

(** [x] is [v * num / den] up to one part in [2^52], with the sign of [v]
    (and [+0] for [v = 0]); in particular [x] is finite. *)
Definition scaled_close (num den v : Z) (x : spec_float) : bool :=
  match x with
  | S754_zero s => (v =? 0) && negb s
  | S754_finite s m e =>
      Bool.eqb s (v <? 0) && (e <? 0) &&
      (2 ^ 52 * Z.abs (den * Z.pos m - Z.abs v * num * 2 ^ (- e))
       <=? Z.abs v * num * 2 ^ (- e))
  | _ => false
  end.

(** The integers [lo], [lo + 1], ..., [n] of them. *)
Fixpoint range (lo : Z) (n : nat) : list Z :=
  match n with
  | O => []
  | S k => lo :: range (lo + 1) k
  end.

(** * Properties *)

(** ** 32-bit operators on small operands *)

Lemma byte_of_range (c : ascii) : 0 <= byte_of c < 256.
Proof.
  unfold byte_of. pose proof (N_ascii_bounded c). lia.
Qed.

Lemma to_int32_small (z : Z) :
  - 2 ^ 31 <= z < 2 ^ 31 -> JS.to_int32 z = z.
Proof.
  intros Hz. unfold JS.to_int32.
  rewrite Z.mod_small by lia. lia.
Qed.

Lemma shl_small (a k : Z) :
  0 <= k < 32 -> 0 <= a -> a * 2 ^ k < 2 ^ 31 -> JS.shl a k = a * 2 ^ k.
Proof.
  intros Hk Ha Hlt. unfold JS.shl.
  assert (Hk' : Z.land k 31 = k).
  { change 31 with (Z.ones 5). rewrite Z.land_ones by lia.
    apply Z.mod_small. change (2 ^ 5) with 32. lia. }
  assert (Hp : 1 <= 2 ^ k) by (apply (Z.pow_le_mono_r 2 0 k); lia).
  rewrite Hk', (to_int32_small a) by nia.
  rewrite Z.shiftl_mul_pow2 by lia.
  apply to_int32_small. nia.
Qed.

Lemma lor_disjoint (hi lo k : Z) :
  0 <= k -> 0 <= lo < 2 ^ k -> Z.lor (hi * 2 ^ k) lo = hi * 2 ^ k + lo.
Proof.
  intros Hk Hlo.
  assert (Hland : Z.land (hi * 2 ^ k) lo = 0).
  { apply Z.bits_inj'. intros i Hi.
    rewrite Z.land_spec, Z.bits_0.
    destruct (Z.ltb_spec i k) as [Hlt | Hge].
    - rewrite Z.mul_pow2_bits_low by lia. reflexivity.
    - rewrite <- (Z.mod_small lo (2 ^ k)) by lia.
      rewrite Z.mod_pow2_bits_high by lia.
      apply andb_false_r. }
  rewrite <- Z.lxor_lor by exact Hland.
  symmetry. apply Z.add_nocarry_lxor. exact Hland.
Qed.

Lemma or_small (hi lo k : Z) :
  0 <= k -> 0 <= lo < 2 ^ k -> 0 <= hi -> hi * 2 ^ k + lo < 2 ^ 31 ->
  JS.or (hi * 2 ^ k) lo = hi * 2 ^ k + lo.
Proof.
  intros Hk Hlo Hhi Hlt. unfold JS.or.
  assert (Hp : 0 < 2 ^ k) by (apply Z.pow_pos_nonneg; lia).
  rewrite !to_int32_small by nia.
  apply lor_disjoint; assumption.
Qed.

Lemma and_ones (x k : Z) :
  0 <= k < 32 -> 0 <= x < 2 ^ 31 -> JS.and (Z.ones k) x = x mod 2 ^ k.
Proof.
  intros Hk Hx. unfold JS.and.
  assert (Hones : 0 <= Z.ones k < 2 ^ 31).
  { rewrite Z.ones_equiv.
    assert (0 < 2 ^ k) by (apply Z.pow_pos_nonneg; lia).
    assert (2 ^ k <= 2 ^ 31) by (apply Z.pow_le_mono_r; lia).
    lia. }
  rewrite !to_int32_small by lia.
  rewrite Z.land_comm. apply Z.land_ones. lia.
Qed.

Lemma land_pow2 (x k : Z) :
  0 <= k -> Z.land x (2 ^ k) = if Z.testbit x k then 2 ^ k else 0.
Proof.
  intros Hk. apply Z.bits_inj'. intros i Hi.
  rewrite Z.land_spec, Z.pow2_bits_eqb by lia.
  destruct (Z.eqb_spec k i) as [-> | Hne].
  - rewrite andb_true_r. destruct (Z.testbit x i) eqn:Hx.
    + rewrite Z.pow2_bits_true by lia. reflexivity.
    + rewrite Z.bits_0. reflexivity.
  - rewrite andb_false_r. destruct (Z.testbit x k).
    + rewrite Z.pow2_bits_false by lia. reflexivity.
    + rewrite Z.bits_0. reflexivity.
Qed.

Lemma testbit_top (x k : Z) :
  0 <= k -> 0 <= x < 2 ^ (k + 1) -> Z.testbit x k = (2 ^ k <=? x).
Proof.
  intros Hk Hx.
  replace (2 ^ (k + 1)) with (2 * 2 ^ k) in Hx
    by (rewrite Z.pow_add_r by lia; change (2 ^ 1) with 2; lia).
  assert (Hp : 0 < 2 ^ k) by (apply Z.pow_pos_nonneg; lia).
  rewrite Z.testbit_eqb by lia.
  destruct (Z.leb_spec (2 ^ k) x) as [Hle | Hlt].
  - assert (Hq : x / 2 ^ k = 1).
    { symmetry. apply (Z.div_unique x (2 ^ k) 1 (x - 2 ^ k)); lia. }
    rewrite Hq. reflexivity.
  - rewrite Z.div_small by lia. reflexivity.
Qed.

(** [utoi] reads an unsigned [bitsz]-bit number as two's complement. *)
Lemma utoi_spec (num bitsz : Z) :
  0 < bitsz < 31 -> 0 <= num < 2 ^ bitsz ->
  BTHomeDecoder.utoi (Some num) bitsz =
  Some (if 2 ^ (bitsz - 1) <=? num then num - 2 ^ bitsz else num).
Proof.
  intros Hb Hn. unfold BTHomeDecoder.utoi. cbn [JS.ToInt32 option_map].
  assert (Hle : 2 ^ bitsz <= 2 ^ 30) by (apply Z.pow_le_mono_r; lia).
  assert (Hlo : 2 ^ (bitsz - 1) < 2 ^ bitsz) by (apply Z.pow_lt_mono_r; lia).
  assert (Hpos : 0 < 2 ^ (bitsz - 1)) by (apply Z.pow_pos_nonneg; lia).
  assert (H30 : 2 ^ 30 < 2 ^ 31) by (apply Z.pow_lt_mono_r; lia).
  rewrite (shl_small 1 (bitsz - 1)), (shl_small 1 bitsz) by lia.
  rewrite !Z.mul_1_l.
  unfold JS.and.
  rewrite !(to_int32_small num), (to_int32_small (2 ^ (bitsz - 1))) by lia.
  rewrite land_pow2 by lia.
  rewrite testbit_top by (replace (bitsz - 1 + 1) with bitsz by lia; lia).
  destruct (2 ^ (bitsz - 1) <=? num).
  - destruct (Z.eqb_spec (2 ^ (bitsz - 1)) 0); [lia | reflexivity].
  - reflexivity.
Qed.

(** ** The integer readers are little-endian *)

Lemma getUInt8_le (c : ascii) (rest : string) :
  BTHomeDecoder.getUInt8 (String c rest) = Some (byte_of c).
Proof. reflexivity. Qed.

Lemma getUInt16LE_le (c0 c1 : ascii) (rest : string) :
  BTHomeDecoder.getUInt16LE (String c0 (String c1 rest)) =
  byte_of c0 + 256 * byte_of c1.
Proof.
  unfold BTHomeDecoder.getUInt16LE.
  change (JS.at_ (String c0 (String c1 rest)) 1) with (Some (byte_of c1)).
  change (JS.at_ (String c0 (String c1 rest)) 0) with (Some (byte_of c0)).
  pose proof (byte_of_range c0) as H0. pose proof (byte_of_range c1) as H1.
  cbn [JS.ToInt32]. rewrite !to_int32_small by (change (2 ^ 31) with 2147483648; lia).
  rewrite shl_small by (change (2 ^ 31) with 2147483648; change (2 ^ 8) with 256; lia).
  rewrite or_small
    by (change (2 ^ 31) with 2147483648; change (2 ^ 8) with 256; lia).
  change 0xffff with (Z.ones 16).
  rewrite and_ones
    by (change (2 ^ 31) with 2147483648; change (2 ^ 8) with 256; lia).
  change (2 ^ 8) with 256. change (2 ^ 16) with 65536.
  rewrite Z.mod_small by lia. lia.
Qed.

Lemma getUInt24LE_le (c0 c1 c2 : ascii) (rest : string) :
  BTHomeDecoder.getUInt24LE (String c0 (String c1 (String c2 rest))) =
  byte_of c0 + 256 * (byte_of c1 + 256 * byte_of c2).
Proof.
  unfold BTHomeDecoder.getUInt24LE.
  change (JS.at_ (String c0 (String c1 (String c2 rest))) 2)
    with (Some (byte_of c2)).
  change (JS.at_ (String c0 (String c1 (String c2 rest))) 1)
    with (Some (byte_of c1)).
  change (JS.at_ (String c0 (String c1 (String c2 rest))) 0)
    with (Some (byte_of c0)).
  pose proof (byte_of_range c0) as H0. pose proof (byte_of_range c1) as H1.
  pose proof (byte_of_range c2) as H2.
  cbn [JS.ToInt32]. rewrite !to_int32_small by (change (2 ^ 31) with 2147483648; lia).
  rewrite !shl_small
    by (change (2 ^ 31) with 2147483648; change (2 ^ 8) with 256;
        change (2 ^ 16) with 65536; lia).
  rewrite (or_small (byte_of c2) (byte_of c1 * 2 ^ 8) 16)
    by (change (2 ^ 31) with 2147483648; change (2 ^ 8) with 256;
        change (2 ^ 16) with 65536; lia).
  replace (byte_of c2 * 2 ^ 16 + byte_of c1 * 2 ^ 8)
    with ((byte_of c2 * 256 + byte_of c1) * 2 ^ 8)
    by (change (2 ^ 16) with 65536; change (2 ^ 8) with 256; lia).
  rewrite or_small
    by (change (2 ^ 31) with 2147483648; change (2 ^ 8) with 256; lia).
  change 0x00ffffff with (Z.ones 24).
  rewrite and_ones
    by (change (2 ^ 31) with 2147483648; change (2 ^ 8) with 256; lia).
  change (2 ^ 8) with 256. change (2 ^ 24) with 16777216.
  rewrite Z.mod_small by lia. lia.
Qed.

Lemma getBufValue_width1 (c0 : ascii) :
  let b := byte_of c0 in
  BTHomeDecoder.getBufValue uint8 (String c0 "") = JS.Int b /\
  BTHomeDecoder.getBufValue int8 (String c0 "") =
  JS.Int (if 128 <=? b then b - 256 else b).
Proof.
  pose proof (byte_of_range c0) as H0.
  split; [reflexivity |].
  change (BTHomeDecoder.getBufValue int8 (String c0 ""))
    with (BTHomeDecoder.number (BTHomeDecoder.utoi (Some (byte_of c0)) 8)).
  rewrite utoi_spec by (change (2 ^ 8) with 256; lia).
  reflexivity.
Qed.

Lemma getBufValue_width2 (c0 c1 : ascii) :
  let v := byte_of c0 + 256 * byte_of c1 in
  BTHomeDecoder.getBufValue uint16 (String c0 (String c1 "")) = JS.Int v /\
  BTHomeDecoder.getBufValue int16 (String c0 (String c1 "")) =
  JS.Int (if 32768 <=? v then v - 65536 else v).
Proof.
  pose proof (byte_of_range c0) as H0. pose proof (byte_of_range c1) as H1.
  split.
  - change (BTHomeDecoder.getBufValue uint16 (String c0 (String c1 "")))
      with (JS.Int (BTHomeDecoder.getUInt16LE (String c0 (String c1 "")))).
    rewrite getUInt16LE_le. reflexivity.
  - change (BTHomeDecoder.getBufValue int16 (String c0 (String c1 "")))
      with (BTHomeDecoder.number
              (BTHomeDecoder.utoi
                 (Some (BTHomeDecoder.getUInt16LE (String c0 (String c1 "")))) 16)).
    rewrite getUInt16LE_le.
    rewrite utoi_spec by (change (2 ^ 16) with 65536; lia).
    reflexivity.
Qed.

Lemma getBufValue_width3 (c0 c1 c2 : ascii) :
  let v := byte_of c0 + 256 * (byte_of c1 + 256 * byte_of c2) in
  BTHomeDecoder.getBufValue uint24 (String c0 (String c1 (String c2 ""))) =
  JS.Int v /\
  BTHomeDecoder.getBufValue int24 (String c0 (String c1 (String c2 ""))) =
  JS.Int (if 8388608 <=? v then v - 16777216 else v).
Proof.
  pose proof (byte_of_range c0) as H0. pose proof (byte_of_range c1) as H1.
  pose proof (byte_of_range c2) as H2.
  split.
  - change (BTHomeDecoder.getBufValue uint24 (String c0 (String c1 (String c2 ""))))
      with (JS.Int (BTHomeDecoder.getUInt24LE
                      (String c0 (String c1 (String c2 ""))))).
    rewrite getUInt24LE_le. reflexivity.
  - change (BTHomeDecoder.getBufValue int24 (String c0 (String c1 (String c2 ""))))
      with (BTHomeDecoder.number
              (BTHomeDecoder.utoi
                 (Some (BTHomeDecoder.getUInt24LE
                          (String c0 (String c1 (String c2 ""))))) 24)).
    rewrite getUInt24LE_le.
    rewrite utoi_spec by (change (2 ^ 24) with 16777216; lia).
    reflexivity.
Qed.

Lemma bit7_top (b : Z) : 0 <= b < 256 -> Z.testbit b 7 = (128 <=? b).
Proof.
  intros Hb. apply (testbit_top b 7); [lia |].
  change (2 ^ (7 + 1)) with 256. exact Hb.
Qed.

(** C7: over a buffer of exactly [width] bytes (1, 2 or 3) the unsigned
    read returns the non-negative little-endian value of the bytes, byte 0
    least significant; the signed read returns that value less
    [2^(8*width)], a number in [[-2^(8*width-1), -1]], when bit 7 of the
    last byte is set, and the value itself, a number in
    [[0, 2^(8*width-1) - 1]], when that bit is clear. *)
Theorem signed_unsigned_reads (width : nat) (buffer : string) (top : Z) :
  (1 <= width <= 3)%nat ->
  String.length buffer = width ->
  JS.at_ buffer (width - 1) = Some top ->
  let u := le_value buffer in
  let bits := 8 * Z.of_nat width in
  (BTHomeDecoder.getBufValue (unsigned_type width) buffer = JS.Int u /\
   0 <= u < 2 ^ bits) /\
  (Z.testbit top 7 = true ->
   BTHomeDecoder.getBufValue (signed_type width) buffer = JS.Int (u - 2 ^ bits) /\
   - 2 ^ (bits - 1) <= u - 2 ^ bits <= -1) /\
  (Z.testbit top 7 = false ->
   BTHomeDecoder.getBufValue (signed_type width) buffer = JS.Int u /\
   0 <= u <= 2 ^ (bits - 1) - 1).
Proof.
  intros Hw Hlen Htop.
  assert (Hcase : width = 1%nat \/ width = 2%nat \/ width = 3%nat) by lia.
  destruct Hcase as [-> | [-> | ->]].
  - destruct buffer as [| c0 [| ? ?]]; try discriminate Hlen.
    injection Htop as <-. fold (byte_of c0).
    pose proof (byte_of_range c0) as H0.
    destruct (getBufValue_width1 c0) as [Hu Hs].
    change (unsigned_type 1) with uint8. change (signed_type 1) with int8.
    rewrite Hu, Hs, bit7_top by exact H0.
    change (le_value (String c0 "")) with (byte_of c0 + 256 * 0).
    change (2 ^ (8 * Z.of_nat 1)) with 256.
    change (2 ^ (8 * Z.of_nat 1 - 1)) with 128.
    rewrite Z.mul_0_r, Z.add_0_r.
    destruct (Z.leb_spec 128 (byte_of c0));
      repeat split; try discriminate; try reflexivity; lia.
  - destruct buffer as [| c0 [| c1 [| ? ?]]]; try discriminate Hlen.
    injection Htop as <-. fold (byte_of c1).
    pose proof (byte_of_range c0) as H0. pose proof (byte_of_range c1) as H1.
    destruct (getBufValue_width2 c0 c1) as [Hu Hs].
    change (unsigned_type 2) with uint16. change (signed_type 2) with int16.
    rewrite Hu, Hs, bit7_top by exact H1.
    change (le_value (String c0 (String c1 "")))
      with (byte_of c0 + 256 * (byte_of c1 + 256 * 0)).
    change (2 ^ (8 * Z.of_nat 2)) with 65536.
    change (2 ^ (8 * Z.of_nat 2 - 1)) with 32768.
    rewrite Z.mul_0_r, Z.add_0_r.
    destruct (Z.leb_spec 128 (byte_of c1));
      destruct (Z.leb_spec 32768 (byte_of c0 + 256 * byte_of c1));
      repeat split; try discriminate; try reflexivity; lia.
  - destruct buffer as [| c0 [| c1 [| c2 [| ? ?]]]]; try discriminate Hlen.
    injection Htop as <-. fold (byte_of c2).
    pose proof (byte_of_range c0) as H0. pose proof (byte_of_range c1) as H1.
    pose proof (byte_of_range c2) as H2.
    destruct (getBufValue_width3 c0 c1 c2) as [Hu Hs].
    change (unsigned_type 3) with uint24. change (signed_type 3) with int24.
    rewrite Hu, Hs, bit7_top by exact H2.
    change (le_value (String c0 (String c1 (String c2 ""))))
      with (byte_of c0 + 256 * (byte_of c1 + 256 * (byte_of c2 + 256 * 0))).
    change (2 ^ (8 * Z.of_nat 3)) with 16777216.
    change (2 ^ (8 * Z.of_nat 3 - 1)) with 8388608.
    rewrite Z.mul_0_r, Z.add_0_r.
    destruct (Z.leb_spec 128 (byte_of c2));
      destruct (Z.leb_spec 8388608
                  (byte_of c0 + 256 * (byte_of c1 + 256 * byte_of c2)));
      repeat split; try discriminate; try reflexivity; lia.
Qed.

Lemma signed_unsigned_reads_witness :
  BTHomeDecoder.getBufValue uint24 (bytes [0x01; 0x02; 0x83]) = JS.Int 8585729 /\
  BTHomeDecoder.getBufValue int24 (bytes [0x01; 0x02; 0x83]) = JS.Int (-8191487) /\
  BTHomeDecoder.getBufValue int16 (bytes [0x01; 0x02]) = JS.Int 513.
Proof.
  destruct (signed_unsigned_reads 3 (bytes [0x01; 0x02; 0x83]) 0x83)
    as [[Hu _] [Hset _]]; [lia | reflexivity | reflexivity |].
  destruct (Hset eq_refl) as [Hs _].
  destruct (signed_unsigned_reads 2 (bytes [0x01; 0x02]) 0x02)
    as [_ [_ Hclear]]; [lia | reflexivity | reflexivity |].
  destruct (Hclear eq_refl) as [Hc _].
  split; [exact Hu | split; [exact Hs | exact Hc]].
Defined.

(** ** The decoding loop *)

Lemma drop_length_le (k : nat) (s : string) :
  (String.length (JS.drop k s) <= String.length s)%nat.
Proof.
  revert s. induction k as [| k IH]; intros s.
  - apply Nat.le_refl.
  - destruct s as [| c s]; cbn [JS.drop String.length].
    + apply Nat.le_refl.
    + specialize (IH s). lia.
Qed.

Lemma slice_length_le (start : Z) (s : string) :
  (String.length (JS.slice start s) <= String.length s)%nat.
Proof. unfold JS.slice. apply drop_length_le. Qed.

Lemma slice_1 (c : ascii) (s : string) : JS.slice 1 (String c s) = s.
Proof. reflexivity. Qed.

(** An iteration that does not leave the loop consumes the tag byte. *)
Lemma unpack_body_shorter (cfg : Config.t) (buffer buffer' : string)
  (result result' : JS.object) :
  unpack_body cfg buffer result = Next buffer' result' ->
  (String.length buffer' < String.length buffer)%nat.
Proof.
  unfold unpack_body. destruct buffer as [| c s].
  - cbn. discriminate.
  - change (JS.at_ (String c s) 0) with (Some (byte_of c)).
    destruct (lookup BTH (byte_of c)) as [e |]; [| discriminate].
    rewrite slice_1.
    destruct (JS.strict_eq _ JS.Null); [discriminate |].
    intros H. injection H as <- _.
    pose proof (slice_length_le (getByteSize (Field.t e)) s).
    cbn [String.length]. lia.
Qed.

(** With one iteration per byte the loop ends, and more fuel does not
    change what it returns. *)
Lemma unpack_while_enough (cfg : Config.t) (bound : nat) :
  forall (buffer : string) (result : JS.object),
    (String.length buffer <= bound)%nat ->
    exists res,
      forall fuel, (String.length buffer <= fuel)%nat ->
        unpack_while cfg fuel buffer result = Some res.
Proof.
  induction bound as [| bound IH]; intros buffer result Hlen.
  - destruct buffer; [| cbn in Hlen; lia].
    exists (result, []). intros [| fuel] _; reflexivity.
  - destruct buffer as [| c s].
    + exists (result, []). intros [| fuel] _; reflexivity.
    + destruct (unpack_body cfg (String c s) result) as [log | s' r'] eqn:Hbody.
      * exists (result, log). intros [| fuel] Hf; [cbn in Hf; lia |].
        cbn [unpack_while]. rewrite Hbody. reflexivity.
      * pose proof (unpack_body_shorter _ _ _ _ _ Hbody) as Hshort.
        cbn [String.length] in Hshort, Hlen.
        destruct (IH s' r') as [res Hres]; [lia |].
        exists res. intros [| fuel] Hf; [cbn in Hf; lia |].
        cbn [unpack_while]. rewrite Hbody.
        change (0 <? JS.length (String c s)) with true. cbn iota.
        apply Hres. cbn [String.length] in Hf. lia.
Qed.

Lemma unpack_while_fuel (cfg : Config.t) (fuel : nat) (buffer : string)
  (result : JS.object) :
  (String.length buffer <= fuel)%nat ->
  unpack_while cfg fuel buffer result =
  unpack_while cfg (String.length buffer) buffer result.
Proof.
  intros Hf.
  destruct (unpack_while_enough cfg (String.length buffer) buffer result
              (Nat.le_refl _)) as [res Hres].
  rewrite (Hres fuel Hf), (Hres _ (Nat.le_refl _)). reflexivity.
Qed.

(** ** The header byte *)

Lemma shr_small (b k : Z) :
  0 <= k < 32 -> 0 <= b < 2 ^ 31 -> JS.shr b k = Z.shiftr b k.
Proof.
  intros Hk Hb. unfold JS.shr.
  rewrite to_int32_small by lia.
  change 31 with (Z.ones 5). rewrite Z.land_ones by lia.
  rewrite Z.mod_small by (change (2 ^ 5) with 32; lia).
  reflexivity.
Qed.

Lemma and_bit0 (b : Z) :
  0 <= b < 2 ^ 31 -> JS.and b 1 = if Z.testbit b 0 then 1 else 0.
Proof.
  intros Hb. unfold JS.and.
  rewrite to_int32_small by lia.
  change (JS.to_int32 1) with (2 ^ 0).
  apply land_pow2. lia.
Qed.

(** [unpack] on a non-empty string, by its first byte. *)
Lemma unpack_header (cfg : Config.t) (header : ascii) (rest : string) :
  unpack cfg (JS.Str (String header rest)) =
  if negb (Z.shiftr (byte_of header) 5 =? 2) then Some (None, [])
  else if Z.testbit (byte_of header) 0
  then Some (Some [("encryption", JS.Bool true); ("BTHome_version", JS.Int 2)],
             [])
  else
    match unpack_while cfg (String.length rest) rest header_fields with
    | Some (result, log) => Some (Some result, log)
    | None => None
    end.
Proof.
  pose proof (byte_of_range header) as Hb.
  unfold unpack.
  change (JS.length (String header rest) =? 0) with false. cbn iota.
  change (JS.at_ (String header rest) 0) with (Some (byte_of header)).
  cbn [JS.ToInt32].
  rewrite to_int32_small by (change (2 ^ 31) with 2147483648; lia).
  rewrite shr_small, and_bit0 by (change (2 ^ 31) with 2147483648; lia).
  rewrite slice_1.
  cbn [JS.set JS.get String.eqb Ascii.eqb Bool.eqb JS.strict_eq JS.truthy].
  destruct (Z.shiftr (byte_of header) 5 =? 2) eqn:Hv; cbn [negb]; [| reflexivity].
  apply Z.eqb_eq in Hv. rewrite Hv.
  destruct (Z.testbit (byte_of header) 0); reflexivity.
Qed.

(** ** Complete, truncated and unknown fields *)

Lemma append_assoc (a b c : string) : ((a ++ b) ++ c = a ++ (b ++ c))%string.
Proof.
  induction a as [| x a IH]; cbn [append]; [reflexivity |].
  rewrite IH. reflexivity.
Qed.

Lemma append_length (a b : string) :
  String.length (a ++ b)%string = (String.length a + String.length b)%nat.
Proof.
  induction a as [| x a IH]; cbn [append String.length]; [reflexivity |].
  rewrite IH. reflexivity.
Qed.

Lemma drop_append (a b : string) : JS.drop (String.length a) (a ++ b)%string = b.
Proof.
  induction a as [| x a IH]; cbn [append String.length JS.drop].
  - destruct b; reflexivity.
  - exact IH.
Qed.

Lemma slice_append (a b : string) : JS.slice (JS.length a) (a ++ b)%string = b.
Proof.
  unfold JS.slice, JS.length.
  destruct (Z.ltb_spec (Z.of_nat (String.length a)) 0) as [Hneg | _]; [lia |].
  rewrite Nat2Z.id. apply drop_append.
Qed.

Lemma BTH_types (k : Z) (e : Field.entry) :
  lookup BTH k = Some e ->
  Field.t e = uint8 \/ Field.t e = uint16 \/ Field.t e = int16 \/
  Field.t e = uint24.
Proof.
  unfold BTH. cbn [lookup].
  repeat (destruct (_ =? k);
          [intros H; injection H as <-; cbn [Field.t]; auto |]).
  discriminate.
Qed.

(** [getBufValue] past its length test. *)
Lemma getBufValue_long (type : Z) (buffer : string) :
  getByteSize type <= JS.length buffer ->
  BTHomeDecoder.getBufValue type buffer =
  if type =? int24 then BTHomeDecoder.number (BTHomeDecoder.getInt24LE buffer)
  else if type =? uint24 then JS.Int (BTHomeDecoder.getUInt24LE buffer)
  else if type =? int16 then BTHomeDecoder.number (BTHomeDecoder.getInt16LE buffer)
  else if type =? uint16 then JS.Int (BTHomeDecoder.getUInt16LE buffer)
  else if type =? int8 then BTHomeDecoder.number (BTHomeDecoder.getInt8 buffer)
  else if type =? uint8 then BTHomeDecoder.number (BTHomeDecoder.getUInt8 buffer)
  else JS.Null.
Proof.
  intros Hlen. unfold BTHomeDecoder.getBufValue.
  destruct (Z.ltb_spec (JS.length buffer) (getByteSize type)); [lia |].
  reflexivity.
Qed.

(** A read of a complete value looks at the value's bytes only and returns
    a number. *)
Lemma getBufValue_complete (type : Z) (value rest : string) :
  type = uint8 \/ type = uint16 \/ type = int16 \/ type = uint24 ->
  JS.length value = getByteSize type ->
  BTHomeDecoder.getBufValue type (value ++ rest)%string =
  BTHomeDecoder.getBufValue type value /\
  exists z, BTHomeDecoder.getBufValue type value = JS.Int z.
Proof.
  intros Htype Hlen.
  assert (Hlong : getByteSize type <= JS.length (value ++ rest)%string).
  { unfold JS.length in *. rewrite append_length. lia. }
  rewrite (getBufValue_long type _ Hlong).
  unfold JS.length in Hlen.
  destruct Htype as [-> | [-> | [-> | ->]]];
    match type of Hlen with
    | _ = getByteSize ?ty =>
        let w := eval vm_compute in (getByteSize ty) in
        change (getByteSize ty) with w in Hlen
    end;
    repeat match goal with
      | |- context [?a =? ?b] =>
          let r := eval vm_compute in (a =? b) in change (a =? b) with r
      end;
    cbv iota.
  - destruct value as [| c0 [| ? ?]]; cbn in Hlen; try lia.
    split; [reflexivity | eexists; reflexivity].
  - destruct value as [| c0 [| c1 [| ? ?]]]; cbn in Hlen; try lia.
    cbn [append]. rewrite getUInt16LE_le.
    rewrite (proj1 (getBufValue_width2 c0 c1)).
    split; [reflexivity | eexists; reflexivity].
  - destruct value as [| c0 [| c1 [| ? ?]]]; cbn in Hlen; try lia.
    cbn [append]. unfold BTHomeDecoder.getInt16LE. rewrite getUInt16LE_le.
    rewrite (proj2 (getBufValue_width2 c0 c1)).
    pose proof (byte_of_range c0). pose proof (byte_of_range c1).
    rewrite utoi_spec by (change (2 ^ 16) with 65536; lia).
    split; [reflexivity | eexists; reflexivity].
  - destruct value as [| c0 [| c1 [| c2 [| ? ?]]]]; cbn in Hlen; try lia.
    cbn [append]. rewrite getUInt24LE_le.
    rewrite (proj1 (getBufValue_width3 c0 c1 c2)).
    split; [reflexivity | eexists; reflexivity].
Qed.

Lemma unpack_body_field (cfg : Config.t) (tag : ascii) (e : Field.entry)
  (value rest : string) (result : JS.object) :
  lookup BTH (byte_of tag) = Some e ->
  JS.length value = getByteSize (Field.t e) ->
  unpack_body cfg (String tag (value ++ rest)) result =
  Next rest (JS.set result (Field.n e) (field_value e value)).
Proof.
  intros Hlook Hlen. unfold unpack_body, field_value.
  change (JS.at_ (String tag (value ++ rest)) 0) with (Some (byte_of tag)).
  cbv beta iota zeta.
  rewrite Hlook, slice_1.
  destruct (getBufValue_complete (Field.t e) value rest
              (BTH_types _ _ Hlook) Hlen) as [Heq [z Hz]].
  rewrite Heq, Hz. cbn [JS.strict_eq].
  rewrite <- Hlen, slice_append. reflexivity.
Qed.


Lemma unpack_body_unknown (cfg : Config.t) (tag : ascii) (rest : string)
  (result : JS.object) :
  lookup BTH (byte_of tag) = None ->
  unpack_body cfg (String tag rest) result =
  Break (logger cfg (Text "unknown type") (JS.Str "BTH")).
Proof.
  intros Hlook. unfold unpack_body.
  change (JS.at_ (String tag rest) 0) with (Some (byte_of tag)).
  cbv beta iota zeta.
  rewrite Hlook. reflexivity.
Qed.

(** Complete fields are decoded the same whatever follows them; the loop
    then goes on with what follows, and nothing is logged for them. *)
Lemma fields_prefix (cfg : Config.t) (pre : string) :
  fields pre ->
  forall result, exists result',
    forall (suffix : string) (fuel : nat),
      (String.length (pre ++ suffix)%string <= fuel)%nat ->
      unpack_while cfg fuel (pre ++ suffix)%string result =
      unpack_while cfg (String.length suffix) suffix result'.
Proof.
  induction 1 as [| tag e value rest Hlook Hlen _ IH]; intros result.
  - exists result. intros suffix fuel Hf. cbn [append] in *.
    apply unpack_while_fuel. exact Hf.
  - destruct (IH (JS.set result (Field.n e) (field_value e value)))
      as [result' Hrest].
    exists result'. intros suffix fuel Hf.
    cbn [append String.length] in Hf |- *.
    rewrite append_assoc in Hf |- *.
    destruct fuel as [| fuel]; [lia |].
    cbn [unpack_while].
    change (0 <? JS.length (String tag (value ++ (rest ++ suffix)))) with true.
    cbn iota.
    rewrite (unpack_body_field cfg tag e value _ result Hlook Hlen).
    apply Hrest. rewrite append_length in Hf. lia.
Qed.

(** ** Decoding: termination, header gate, examples *)

(** C10: an iteration of the decoding loop that does not leave it goes on
    with a strictly shorter buffer; with as many iterations as the buffer
    has bytes, or more, the loop returns; and [unpack] returns on every
    input. *)
Theorem unpack_terminates (cfg : Config.t) (buffer : string)
  (result : JS.object) :
  (forall buffer' result',
      unpack_body cfg buffer result = Next buffer' result' ->
      (String.length buffer' < String.length buffer)%nat) /\
  (exists res,
      forall fuel, (String.length buffer <= fuel)%nat ->
        unpack_while cfg fuel buffer result = Some res) /\
  (forall input, exists res, unpack cfg input = Some res).
Proof.
  split; [| split].
  - intros buffer' result'. apply unpack_body_shorter.
  - apply (unpack_while_enough cfg (String.length buffer)). apply Nat.le_refl.
  - intros input. destruct input as [| | b | z | x | s];
      try (eexists; reflexivity).
    destruct s as [| header rest]; [eexists; reflexivity |].
    rewrite unpack_header.
    destruct (negb (Z.shiftr (byte_of header) 5 =? 2)); [eexists; reflexivity |].
    destruct (Z.testbit (byte_of header) 0); [eexists; reflexivity |].
    destruct (unpack_while_enough cfg (String.length rest) rest header_fields
                (Nat.le_refl _)) as [[r log] Hres].
    rewrite (Hres _ (Nat.le_refl _)). eexists; reflexivity.
Qed.

Lemma unpack_terminates_witness :
  Nat.lt (String.length (bytes [0x05; 0x6d; 0x00; 0x00]))
         (String.length (bytes [0x00; 0x05; 0x05; 0x6d; 0x00; 0x00])) /\
  exists res,
    unpack_while CONFIG 6 (bytes [0x00; 0x05; 0x05; 0x6d; 0x00; 0x00])
      header_fields = Some res.
Proof.
  destruct (unpack_terminates CONFIG (bytes [0x00; 0x05; 0x05; 0x6d; 0x00; 0x00])
              header_fields) as [Hstep [[res Hres] _]].
  split.
  - apply (Hstep (bytes [0x05; 0x6d; 0x00; 0x00])
             (JS.set header_fields "pid" (JS.Int 5))).
    reflexivity.
  - exists res. apply Hres. vm_compute. lia.
Defined.

(** C6: on a non-empty buffer whose first byte, shifted right by 5, is not
    2, [unpack] returns [null]; when it is 2 and bit 0 of the byte is set,
    [unpack] returns the object with the two header fields and nothing
    else. *)
Theorem header_gate (cfg : Config.t) (header : ascii) (rest : string) :
  (Z.shiftr (byte_of header) 5 <> 2 ->
   unpack cfg (JS.Str (String header rest)) = Some (None, [])) /\
  (Z.shiftr (byte_of header) 5 = 2 ->
   Z.testbit (byte_of header) 0 = true ->
   unpack cfg (JS.Str (String header rest)) =
   Some (Some [("encryption", JS.Bool true); ("BTHome_version", JS.Int 2)],
         [])).
Proof.
  rewrite unpack_header. split.
  - intros Hv. apply Z.eqb_neq in Hv. rewrite Hv. reflexivity.
  - intros Hv Henc. rewrite Hv, Henc. reflexivity.
Qed.

Lemma header_gate_witness :
  unpack CONFIG (JS.Str (bytes [0x61; 0x00; 0x05])) = Some (None, []) /\
  unpack CONFIG (JS.Str (bytes [0x41; 0x00; 0x05])) =
  Some (Some [("encryption", JS.Bool true); ("BTHome_version", JS.Int 2)], []).
Proof.
  split.
  - apply (proj1 (header_gate CONFIG "a"%char (bytes [0x00; 0x05]))).
    vm_compute. discriminate.
  - apply (proj2 (header_gate CONFIG "A"%char (bytes [0x00; 0x05])));
      reflexivity.
Defined.

(** The literals of the script and of the example are the binary64 values
    nearest to their decimal text. *)
Lemma literals_nearest :
  JS.nearest 1 100 factor_0_01 /\ JS.nearest 1 10 factor_0_1 /\
  JS.nearest 109 100 literal_1_09.
Proof.
  repeat split; vm_compute; congruence.
Qed.

(** C3, as the code has it: the bytes 40 00 05 05 6d 00 00 decode to the
    object with the two header fields ([encryption] false,
    [BTHome_version] 2) followed by [pid] 5 and [illuminance] 1.09, where
    1.09 is the binary64 value of that literal; nothing is logged. *)
Theorem decode_pid_illuminance (cfg : Config.t) :
  unpack cfg (JS.Str (bytes [0x40; 0x00; 0x05; 0x05; 0x6d; 0x00; 0x00])) =
  Some (Some [("encryption", JS.Bool false); ("BTHome_version", JS.Int 2);
              ("pid", JS.Int 5); ("illuminance", JS.Float literal_1_09)],
        []) /\
  JS.nearest 109 100 literal_1_09.
Proof.
  split; [reflexivity | apply literals_nearest].
Qed.

(** C3, as stated, fails: the decoded object is not [{pid: 5,
    illuminance: 1.09}], it carries the header fields as well. *)
Lemma decode_pid_illuminance_counterexample :
  ~ exists log,
      unpack CONFIG (JS.Str (bytes [0x40; 0x00; 0x05; 0x05; 0x6d; 0x00; 0x00])) =
      Some (Some [("pid", JS.Int 5); ("illuminance", JS.Float literal_1_09)],
            log).
Proof.
  intros [log H]. vm_compute in H. discriminate H.
Qed.

(** C4, as the code has it: after a version-2 unencrypted header, the
    bytes 00 05 and a tag that [BTH] does not have, decoding stops at that
    tag and returns the header fields followed by [pid] 5, whatever comes
    after the tag; [logger] is called once with "unknown type", which
    prints when [CONFIG.debug] is set and nothing otherwise. *)
Theorem unknown_tag_stops (cfg : Config.t) (header tag : ascii)
  (rest : string) :
  plain_v2 header ->
  lookup BTH (byte_of tag) = None ->
  unpack cfg (JS.Str (String header (bytes [0x00; 0x05] ++ String tag rest))) =
  Some (Some [("encryption", JS.Bool false); ("BTHome_version", JS.Int 2);
              ("pid", JS.Int 5)],
        if Config.debug cfg then [ConsoleLog "BTH:" (Text "unknown type")]
        else []).
Proof.
  intros [Hv Henc] Hlook.
  rewrite unpack_header, Hv, Henc. cbn [Z.eqb Pos.eqb negb].
  change (bytes [0x00; 0x05] ++ String tag rest)%string
    with (String "000" (String "005" (String tag rest))).
  destruct (fields_prefix cfg (String "000" (String "005" "" ++ ""))
              (fields_cons "000" (Field.Entry "pid" uint8 None None)
                 (String "005" "") "" eq_refl eq_refl fields_nil)
              header_fields) as [result' Hpre].
  assert (Hres : result' = JS.set header_fields "pid" (JS.Int 5)).
  { specialize (Hpre "" 2%nat (Nat.le_refl _)).
    cbn in Hpre. injection Hpre as <-. reflexivity. }
  subst result'.
  specialize (Hpre (String tag rest) _ (Nat.le_refl _)).
  cbn [append] in Hpre. rewrite Hpre.
  cbn [String.length unpack_while].
  change (0 <? JS.length (String tag rest)) with true. cbv iota.
  rewrite (unpack_body_unknown cfg tag rest _ Hlook).
  unfold logger. destruct (Config.debug cfg); reflexivity.
Qed.

Lemma unknown_tag_stops_witness :
  unpack CONFIG (JS.Str (bytes [0x40; 0x00; 0x05; 0xff; 0x6d; 0x00])) =
  Some (Some [("encryption", JS.Bool false); ("BTHome_version", JS.Int 2);
              ("pid", JS.Int 5)],
        [ConsoleLog "BTH:" (Text "unknown type")]).
Proof.
  apply (unknown_tag_stops CONFIG "@"%char (ascii_of_N 255)
           (bytes [0x6d; 0x00])).
  - split; reflexivity.
  - reflexivity.
Defined.

(** C4, as stated, fails: the returned object is not [{pid: 5}], it
    carries the header fields as well. *)
Lemma unknown_tag_stops_counterexample :
  ~ exists log,
      unpack CONFIG (JS.Str (bytes [0x40; 0x00; 0x05; 0xff])) =
      Some (Some [("pid", JS.Int 5)], log).
Proof.
  intros [log H]. vm_compute in H. discriminate H.
Qed.



(** ** Objects and arrays *)

Lemma get_set_same (o : JS.object) (k : string) (v : JS.value) :
  JS.get (JS.set o k v) k = v.
Proof.
  induction o as [| [k' v'] o IH]; cbn [JS.set JS.get].
  - rewrite String.eqb_refl. reflexivity.
  - destruct (String.eqb k' k) eqn:Hk; cbn [JS.get]; rewrite Hk; auto.
Qed.

Lemma get_set_other (o : JS.object) (k k' : string) (v : JS.value) :
  k <> k' -> JS.get (JS.set o k v) k' = JS.get o k'.
Proof.
  intros Hne. induction o as [| [k0 v0] o IH]; cbn [JS.set JS.get].
  - apply String.eqb_neq in Hne. rewrite Hne. reflexivity.
  - destruct (String.eqb k0 k) eqn:Hk; cbn [JS.get].
    + apply String.eqb_eq in Hk. subst k0.
      apply String.eqb_neq in Hne. rewrite Hne. reflexivity.
    + rewrite IH. reflexivity.
Qed.

Lemma indexOf_from_absent (a : list string) (s : string) (i : Z) :
  ~ In s a -> JS.indexOf_from a (JS.Str s) i = -1.
Proof.
  revert i. induction a as [| y a IH]; intros i Hnot; cbn [JS.indexOf_from].
  - reflexivity.
  - cbn [JS.strict_eq]. destruct (String.eqb_spec y s) as [-> | Hne].
    + exfalso. apply Hnot. left. reflexivity.
    + apply IH. intros Hin. apply Hnot. right. exact Hin.
Qed.

Lemma indexOf_from_first (pre a : list string) (s : string) (i : Z) :
  ~ In s pre ->
  JS.indexOf_from (pre ++ s :: a) (JS.Str s) i = i + Z.of_nat (List.length pre).
Proof.
  revert i. induction pre as [| y pre IH]; intros i Hnot;
    cbn [JS.indexOf_from app List.length JS.strict_eq].
  - rewrite String.eqb_refl. cbn [Z.of_nat]. lia.
  - destruct (String.eqb_spec y s) as [-> | Hne].
    + exfalso. apply Hnot. left. reflexivity.
    + rewrite IH by (intros Hin; apply Hnot; right; exact Hin). lia.
Qed.

Lemma indexOf_from_present (a : list string) (s : string) (i : Z) :
  In s a -> i <= JS.indexOf_from a (JS.Str s) i.
Proof.
  revert i. induction a as [| y a IH]; intros i Hin; [destruct Hin |].
  cbn [JS.indexOf_from JS.strict_eq].
  destruct (String.eqb_spec y s) as [-> | Hne]; [lia |].
  destruct Hin as [-> | Hin]; [congruence |].
  specialize (IH (i + 1) Hin). lia.
Qed.

(** [indexOf] finds exactly the members. *)
Lemma indexOf_In (a : list string) (s : string) :
  (JS.indexOf a (JS.Str s) <? 0) = false <-> In s a.
Proof.
  unfold JS.indexOf. split.
  - intros H. destruct (in_dec string_dec s a) as [Hin | Hnot]; [exact Hin |].
    rewrite indexOf_from_absent in H by exact Hnot. discriminate H.
  - intros Hin. apply Z.ltb_ge. apply indexOf_from_present. exact Hin.
Qed.

(** ** The allow-list after [init] *)

Lemma lower_ascii_idempotent (c : ascii) :
  JS.lower_ascii (JS.lower_ascii c) = JS.lower_ascii c.
Proof.
  destruct c as [[] [] [] [] [] [] [] []]; reflexivity.
Qed.

Lemma toLowerCase_idempotent (s : string) :
  JS.toLowerCase (JS.toLowerCase s) = JS.toLowerCase s.
Proof.
  induction s as [| c s IH]; cbn [JS.toLowerCase]; [reflexivity |].
  rewrite lower_ascii_idempotent, IH. reflexivity.
Qed.

(** The filter of [init] keeps the first occurrence of every element. *)
Lemma filter_first (full pre a : list string) (s : string) :
  full = pre ++ a ->
  In s (JS.filter_from
          (fun value index => JS.indexOf full (JS.Str value) =? index)
          a (Z.of_nat (List.length pre))) <->
  In s a /\ ~ In s pre.
Proof.
  revert pre. induction a as [| y a IH]; intros pre Hfull;
    cbn [JS.filter_from].
  - cbn [In]. tauto.
  - assert (Hnext : In s (JS.filter_from
                            (fun value index =>
                               JS.indexOf full (JS.Str value) =? index)
                            a (Z.of_nat (List.length pre) + 1)) <->
                    In s a /\ ~ In s (pre ++ [y])).
    { replace (Z.of_nat (List.length pre) + 1)
        with (Z.of_nat (List.length (pre ++ [y])))
        by (rewrite length_app; cbn [List.length]; lia).
      apply IH. rewrite <- app_assoc. exact Hfull. }
    assert (Hkeep : (JS.indexOf full (JS.Str y) =? Z.of_nat (List.length pre))
                    = true <-> ~ In y pre).
    { unfold JS.indexOf. rewrite Hfull. split.
      - intros Heq Hin. apply Z.eqb_eq in Heq.
        apply in_split in Hin. destruct Hin as [l1 [l2 ->]].
        destruct (in_dec string_dec y l1) as [Hin1 | Hnot1].
        + apply in_split in Hin1. destruct Hin1 as [l3 [l4 ->]].
          assert (Hfirst : exists l5 l6, (l3 ++ y :: l4) = l5 ++ y :: l6 /\
                                         ~ In y l5).
          { clear. induction l3 as [| z l3 IH3].
            - exists [], l4. split; [reflexivity | intros []].
            - destruct (string_dec z y) as [-> | Hzy].
              + exists [], (l3 ++ y :: l4). split; [reflexivity | intros []].
              + destruct IH3 as [l5 [l6 [He Hn]]].
                exists (z :: l5), l6. cbn [app]. rewrite He.
                split; [reflexivity |].
                intros [Hz | Hin]; [congruence | exact (Hn Hin)]. }
          destruct Hfirst as [l5 [l6 [He Hn]]].
          assert (Hlen : (List.length l5 < List.length (l3 ++ y :: l4))%nat).
          { rewrite He, length_app. cbn [List.length]. lia. }
          rewrite He in Heq.
          repeat rewrite <- app_assoc in Heq. cbn [app] in Heq.
          rewrite indexOf_from_first in Heq by exact Hn.
          rewrite He in Hlen.
          rewrite !length_app in Heq. cbn [List.length] in Heq.
          rewrite !length_app in Hlen. cbn [List.length] in Hlen. lia.
        + repeat rewrite <- app_assoc in Heq. cbn [app] in Heq.
          rewrite indexOf_from_first in Heq by exact Hnot1.
          rewrite !length_app in Heq. cbn [List.length] in Heq. lia.
      - intros Hnot. rewrite indexOf_from_first by exact Hnot.
        apply Z.eqb_eq. lia. }
    destruct (JS.indexOf full (JS.Str y) =? Z.of_nat (List.length pre)) eqn:Hk.
    + assert (Hy : ~ In y pre) by (apply Hkeep; reflexivity).
      cbn [In]. rewrite Hnext. rewrite in_app_iff. cbn [In].
      destruct (string_dec y s) as [-> | Hne]; [tauto |]. tauto.
    + assert (Hy : In y pre).
      { destruct (in_dec string_dec y pre) as [H | H]; [exact H |].
        apply Hkeep in H. discriminate H. }
      cbn [In]. rewrite Hnext. rewrite in_app_iff. cbn [In].
      destruct (string_dec y s) as [-> | Hne]; [tauto |]. tauto.
Qed.

Lemma processMacAddresses_In (allowed : list string) (s : string) :
  In s (processMacAddresses allowed) <->
  exists a, In a allowed /\ JS.toLowerCase a = s.
Proof.
  unfold processMacAddresses, JS.filter.
  rewrite (filter_first (map JS.toLowerCase allowed) [] _ s eq_refl).
  rewrite in_map_iff. cbn [In]. split.
  - intros [[a [Ha Hin]] _]. exists a. split; assumption.
  - intros [a [Hin Ha]]. split; [exists a; split; assumption | tauto].
Qed.

(** ** The address filter *)

Lemma init_processed (host : Host.t) (cfg : Config.t) (allowed : list string) :
  Host.ble_enable host = true ->
  Config.allowedMacAddresses cfg = Config.Array allowed ->
  Config._processedMacAddresses (fst (init host cfg)) =
  Config.Array (processMacAddresses allowed).
Proof.
  intros Hble Hallowed. unfold init. rewrite Hble, Hallowed. reflexivity.
Qed.

Lemma onReceivedPacket_filter (cfg : Config.t) (allowed : list string)
  (data : JS.object) :
  Config._processedMacAddresses cfg = Config.Array allowed ->
  fst (onReceivedPacket cfg data) =
  if JS.indexOf allowed (JS.get data "address") <? 0 then Filtered else Handled.
Proof.
  intros Hcfg. unfold onReceivedPacket. rewrite Hcfg.
  destruct (JS.indexOf allowed (JS.get data "address") <? 0); reflexivity.
Qed.

(** C1, as the code has it: [init] lower-cases the configured entries, and
    [onReceivedPacket] looks the packet's address up as it was received.
    So a packet is handled exactly when its address is the lower-case form
    of a configured entry, and filtered out otherwise; in particular it is
    filtered out when its lower-cased address is not on the list.  Letter
    case is ignored in the configuration only. *)
Theorem address_filter (host : Host.t) (cfg : Config.t)
  (allowed : list string) (data : JS.object) (address : string) :
  Host.ble_enable host = true ->
  Config.allowedMacAddresses cfg = Config.Array allowed ->
  JS.get data "address" = JS.Str address ->
  let outcome := fst (onReceivedPacket (fst (init host cfg)) data) in
  (outcome = Handled <->
   exists a, In a allowed /\ JS.toLowerCase a = address) /\
  (outcome = Filtered <->
   ~ exists a, In a allowed /\ JS.toLowerCase a = address) /\
  (~ (exists a, In a allowed /\ JS.toLowerCase a = JS.toLowerCase address) ->
   outcome = Filtered).
Proof.
  intros Hble Hallowed Haddr outcome. subst outcome.
  rewrite (onReceivedPacket_filter _ _ _ (init_processed _ _ _ Hble Hallowed)).
  rewrite Haddr.
  pose proof (indexOf_In (processMacAddresses allowed) address) as Hidx.
  rewrite processMacAddresses_In in Hidx.
  destruct (JS.indexOf (processMacAddresses allowed) (JS.Str address) <? 0).
  - assert (Hnot : ~ exists a, In a allowed /\ JS.toLowerCase a = address).
    { intros H. apply Hidx in H. discriminate H. }
    split; [| split].
    + split; [discriminate | tauto].
    + split; [tauto | reflexivity].
    + reflexivity.
  - assert (Hin : exists a, In a allowed /\ JS.toLowerCase a = address).
    { apply Hidx. reflexivity. }
    split; [| split].
    + split; [tauto | reflexivity].
    + split; [discriminate | tauto].
    + intros Hlow. exfalso. apply Hlow.
      destruct Hin as [a [Ha Heq]]. exists a. split; [exact Ha |].
      rewrite <- Heq. symmetry. apply toLowerCase_idempotent.
Qed.

Lemma address_filter_witness :
  fst (onReceivedPacket (started CONFIG)
         [("pid", JS.Int 5); ("address", JS.Str "b0:c7:de:3b:29:15")]) = Handled /\
  fst (onReceivedPacket (started CONFIG)
         [("pid", JS.Int 5); ("address", JS.Str "aa:bc:12:34:56:78")]) = Filtered.
Proof.
  split.
  - apply (address_filter (Host.Make true true true) CONFIG
             ["b0:c7:de:3b:29:15"]
             [("pid", JS.Int 5); ("address", JS.Str "b0:c7:de:3b:29:15")]
             "b0:c7:de:3b:29:15" eq_refl eq_refl eq_refl).
    exists "b0:c7:de:3b:29:15". split; [left |]; reflexivity.
  - apply (address_filter (Host.Make true true true) CONFIG
             ["b0:c7:de:3b:29:15"]
             [("pid", JS.Int 5); ("address", JS.Str "aa:bc:12:34:56:78")]
             "aa:bc:12:34:56:78" eq_refl eq_refl eq_refl).
    intros [a [[<- | []] Heq]]. vm_compute in Heq. discriminate Heq.
Defined.

(** C1, as stated, fails: with the allow-list of the script, a packet from
    "B0:C7:DE:3B:29:15", which differs from the entry in letter case only,
    is filtered out. *)
Lemma address_filter_counterexample :
  JS.toLowerCase "B0:C7:DE:3B:29:15" = "b0:c7:de:3b:29:15" /\
  Config._processedMacAddresses (started CONFIG) =
  Config.Array ["b0:c7:de:3b:29:15"] /\
  BLEScanCallback (started CONFIG) lastPacketId SCAN_RESULT
    (advert "B0:C7:DE:3B:29:15" (-53) [0x40; 0x00; 0x05]) =
  Some (JS.Int 5, Received Filtered,
        [ConsoleLog "Info:"
           (Items [JS.Str "Received event from"; JS.Str "B0:C7:DE:3B:29:15";
                   JS.Str "outside of the allowed addresses"])]).
Proof.
  repeat split.
Qed.

(** ** The duplicate filter *)

(** [BLEScanCallback] on a scan result that decodes to [data]. *)
Lemma callback_decoded (cfg : Config.t) (last : JS.value)
  (result : Scan.result) (data : JS.object) :
  decodes cfg result data ->
  exists log,
    BLEScanCallback cfg last SCAN_RESULT result =
    if JS.strict_eq last (JS.get data "pid")
    then Some (last, Duplicate, log)
    else
      let packet :=
        JS.set (JS.set data "rssi" (Scan.rssi result))
          "address" (Scan.addr result) in
      Some (JS.get data "pid", Received (fst (onReceivedPacket cfg packet)),
            log ++ snd (onReceivedPacket cfg packet)).
Proof.
  intros [service_data [log [Hsd [Hdef [Hun Henc]]]]].
  exists log. unfold BLEScanCallback. cbn [scan_event_eqb negb].
  rewrite Hsd, Hdef, Hun, Henc.
  destruct (JS.strict_eq last (JS.get data "pid")); [reflexivity |].
  cbv zeta.
  destruct (onReceivedPacket cfg _) as [r effects]. reflexivity.
Qed.

Lemma onReceivedPacket_allowed (cfg : Config.t) (data : JS.object) :
  address_allowed cfg (JS.get data "address") ->
  fst (onReceivedPacket cfg data) = Handled.
Proof.
  unfold address_allowed, onReceivedPacket.
  destruct (Config._processedMacAddresses cfg) as [| | allowed].
  - intros [].
  - reflexivity.
  - intros [s [-> Hin]].
    apply indexOf_In in Hin. rewrite Hin. reflexivity.
Qed.

Lemma callback_fresh (cfg : Config.t) (last : JS.value)
  (result : Scan.result) (data : JS.object) :
  decodes cfg result data ->
  JS.strict_eq last (JS.get data "pid") = false ->
  address_allowed cfg (Scan.addr result) ->
  exists effects,
    BLEScanCallback cfg last SCAN_RESULT result =
    Some (JS.get data "pid", Received Handled, effects).
Proof.
  intros Hdec Hne Haddr.
  destruct (callback_decoded cfg last result data Hdec) as [log Hcall].
  rewrite Hne in Hcall. cbv zeta in Hcall.
  rewrite onReceivedPacket_allowed in Hcall
    by (rewrite get_set_same; exact Haddr).
  eexists. exact Hcall.
Qed.

Lemma callback_duplicate (cfg : Config.t) (last : JS.value)
  (result : Scan.result) (data : JS.object) :
  decodes cfg result data ->
  JS.strict_eq last (JS.get data "pid") = true ->
  exists effects,
    BLEScanCallback cfg last SCAN_RESULT result =
    Some (last, Duplicate, effects).
Proof.
  intros Hdec Heq.
  destruct (callback_decoded cfg last result data Hdec) as [log Hcall].
  rewrite Heq in Hcall. eexists. exact Hcall.
Qed.

(** ** The packet id of a decoded object *)


Lemma BTH_pid (k : Z) (e : Field.entry) :
  lookup BTH k = Some e ->
  e = Field.Entry "pid" uint8 None None \/ Field.n e <> "pid".
Proof.
  unfold BTH. cbn [lookup].
  repeat (destruct (_ =? k);
          [intros H; injection H as <-; cbn [Field.n];
           first [left; reflexivity | right; discriminate] |]).
  discriminate.
Qed.

Lemma getBufValue_uint8 (buffer : string) :
  BTHomeDecoder.getBufValue uint8 buffer =
  match buffer with
  | EmptyString => JS.Null
  | String c _ => JS.Int (byte_of c)
  end.
Proof.
  destruct buffer as [| c s]; [reflexivity |].
  rewrite getBufValue_long; [reflexivity |].
  change (getByteSize uint8) with 1.
  unfold JS.length. cbn [String.length]. lia.
Qed.

Lemma unpack_body_pid (cfg : Config.t) (buffer buffer' : string)
  (result result' : JS.object) :
  unpack_body cfg buffer result = Next buffer' result' ->
  pid_in_range result -> pid_in_range result'.
Proof.
  unfold unpack_body. destruct buffer as [| c s]; [cbn; discriminate |].
  change (JS.at_ (String c s) 0) with (Some (byte_of c)). cbv beta iota zeta.
  destruct (lookup BTH (byte_of c)) as [e |] eqn:Hlook; [| discriminate].
  rewrite slice_1.
  destruct (JS.strict_eq _ JS.Null) eqn:Hnull; [discriminate |].
  intros H Hr. injection H as _ <-.
  destruct (BTH_pid _ _ Hlook) as [-> | Hother].
  - cbn [Field.n Field.f Field.t] in *. unfold pid_in_range.
    rewrite get_set_same. rewrite getBufValue_uint8 in Hnull |- *.
    destruct s as [| c0 s0]; [discriminate Hnull |].
    right. exists (byte_of c0). split; [reflexivity |].
    pose proof (byte_of_range c0). lia.
  - unfold pid_in_range. rewrite get_set_other by exact Hother. exact Hr.
Qed.

Lemma unpack_while_pid (cfg : Config.t) (fuel : nat) :
  forall (buffer : string) (result final : JS.object) (log : list effect),
    unpack_while cfg fuel buffer result = Some (final, log) ->
    pid_in_range result -> pid_in_range final.
Proof.
  induction fuel as [| fuel IH]; intros buffer result final log;
    cbn [unpack_while]; destruct (0 <? JS.length buffer);
    try discriminate;
    try (intros H Hr; injection H as <- _; exact Hr).
  destruct (unpack_body cfg buffer result) as [l | b' r'] eqn:Hbody.
  - intros H Hr. injection H as <- _. exact Hr.
  - intros H Hr. apply (IH _ _ _ _ H).
    apply (unpack_body_pid _ _ _ _ _ Hbody Hr).
Qed.

(** Whatever [unpack] returns has a [pid] between 0 and 255, or none. *)
Lemma unpack_pid (cfg : Config.t) (input : JS.value) (data : JS.object)
  (log : list effect) :
  unpack cfg input = Some (Some data, log) -> pid_in_range data.
Proof.
  destruct input as [| | b | z | x | s]; try discriminate.
  destruct s as [| header rest]; [discriminate |].
  rewrite unpack_header.
  destruct (negb (Z.shiftr (byte_of header) 5 =? 2)); [discriminate |].
  destruct (Z.testbit (byte_of header) 0).
  - intros H. injection H as <- _. left. reflexivity.
  - destruct (unpack_while cfg (String.length rest) rest header_fields)
      as [[r l] |] eqn:Hrun; [| discriminate].
    intros H. injection H as <- _.
    apply (unpack_while_pid _ _ _ _ _ _ Hrun). left. reflexivity.
Qed.

Lemma decodes_pid (cfg : Config.t) (result : Scan.result) (data : JS.object) :
  decodes cfg result data -> pid_in_range data.
Proof.
  intros [service_data [log [_ [_ [Hun _]]]]].
  apply (unpack_pid _ _ _ _ Hun).
Qed.

Lemma sentinel_fresh (data : JS.object) :
  pid_in_range data -> JS.strict_eq lastPacketId (JS.get data "pid") = false.
Proof.
  intros [-> | [p [-> Hp]]]; cbn [lastPacketId JS.strict_eq]; [reflexivity |].
  apply Z.eqb_neq. lia.
Qed.

(** ** Runs of scan results *)

Lemma scan_app (cfg : Config.t) (first second : list Scan.result) :
  forall (last mid final : JS.value) (es es' : list exit),
    scan cfg last first = Some (es, mid) ->
    scan cfg mid second = Some (es', final) ->
    scan cfg last (first ++ second) = Some (es ++ es', final).
Proof.
  induction first as [| r first IH]; intros last mid final es es';
    cbn [scan app].
  - intros H. injection H as <- <-. auto.
  - destruct (BLEScanCallback cfg last SCAN_RESULT r) as [[[l e] eff] |];
      [| discriminate].
    destruct (scan cfg l first) as [[es0 f0] |] eqn:Hfirst; [| discriminate].
    intros H Hsecond. injection H as <- <-.
    rewrite (IH _ _ _ _ _ Hfirst Hsecond). reflexivity.
Qed.

(** While [lastPacketId] is [undefined], objects without [pid] are
    duplicates and leave it [undefined]. *)
Lemma scan_without_pid (cfg : Config.t) (results : list Scan.result) :
  Forall (fun r => exists data,
              decodes cfg r data /\ JS.get data "pid" = JS.Undefined) results ->
  scan cfg JS.Undefined results =
  Some (repeat Duplicate (List.length results), JS.Undefined).
Proof.
  induction 1 as [| r results [data [Hdec Hpid]] _ IH]; [reflexivity |].
  cbn [scan List.length repeat].
  destruct (callback_duplicate cfg JS.Undefined r data Hdec) as [eff Hcall].
  { rewrite Hpid. reflexivity. }
  rewrite Hcall, IH. reflexivity.
Qed.

(** ** Admission *)

(** C8: from the initial [lastPacketId], of two scan results in a row that
    carry the same [pid] the first is handled and the second is left as a
    duplicate; a third with another [pid] is handled.  The first and third
    come from addresses that pass the address filter. *)
Theorem duplicate_rejected (cfg : Config.t) (r1 r2 r3 : Scan.result)
  (d1 d2 d3 : JS.object) (p q : Z) :
  decodes cfg r1 d1 -> decodes cfg r2 d2 -> decodes cfg r3 d3 ->
  JS.get d1 "pid" = JS.Int p ->
  JS.get d2 "pid" = JS.Int p ->
  JS.get d3 "pid" = JS.Int q ->
  p <> q ->
  address_allowed cfg (Scan.addr r1) ->
  address_allowed cfg (Scan.addr r3) ->
  scan cfg lastPacketId [r1; r2; r3] =
  Some ([Received Handled; Duplicate; Received Handled], JS.Int q).
Proof.
  intros H1 H2 H3 Hp1 Hp2 Hp3 Hpq Ha1 Ha3.
  cbn [scan].
  destruct (callback_fresh cfg lastPacketId r1 d1 H1) as [e1 Hc1];
    [apply sentinel_fresh, (decodes_pid _ _ _ H1) | exact Ha1 |].
  rewrite Hc1, Hp1.
  destruct (callback_duplicate cfg (JS.Int p) r2 d2 H2) as [e2 Hc2].
  { rewrite Hp2. cbn [JS.strict_eq]. apply Z.eqb_refl. }
  rewrite Hc2.
  destruct (callback_fresh cfg (JS.Int p) r3 d3 H3) as [e3 Hc3];
    [rewrite Hp3; cbn [JS.strict_eq]; apply Z.eqb_neq; exact Hpq | exact Ha3 |].
  rewrite Hc3, Hp3. reflexivity.
Qed.

Lemma duplicate_rejected_witness :
  scan (started CONFIG) lastPacketId
    [advert "b0:c7:de:3b:29:15" (-53) [0x40; 0x00; 0x05; 0x21; 0x01];
     advert "b0:c7:de:3b:29:15" (-53) [0x40; 0x00; 0x05; 0x21; 0x01];
     advert "b0:c7:de:3b:29:15" (-50) [0x40; 0x00; 0x06; 0x21; 0x00]] =
  Some ([Received Handled; Duplicate; Received Handled], JS.Int 6).
Proof.
  apply (duplicate_rejected (started CONFIG) _ _ _
           [("encryption", JS.Bool false); ("BTHome_version", JS.Int 2);
            ("pid", JS.Int 5); ("motion", JS.Int 1)]
           [("encryption", JS.Bool false); ("BTHome_version", JS.Int 2);
            ("pid", JS.Int 5); ("motion", JS.Int 1)]
           [("encryption", JS.Bool false); ("BTHome_version", JS.Int 2);
            ("pid", JS.Int 6); ("motion", JS.Int 0)] 5 6).
  - eexists. exists []. repeat split.
  - eexists. exists []. repeat split.
  - eexists. exists []. repeat split.
  - reflexivity.
  - reflexivity.
  - reflexivity.
  - lia.
  - exists "b0:c7:de:3b:29:15". split; [reflexivity | left; reflexivity].
  - exists "b0:c7:de:3b:29:15". split; [reflexivity | left; reflexivity].
Defined.

Lemma callback_passes (cfg : Config.t) (last : JS.value)
  (result : Scan.result) (data : JS.object) :
  decodes cfg result data ->
  JS.strict_eq last (JS.get data "pid") = false ->
  exists r effects,
    BLEScanCallback cfg last SCAN_RESULT result =
    Some (JS.get data "pid", Received r, effects) /\
    (address_allowed cfg (Scan.addr result) -> r = Handled).
Proof.
  intros Hdec Hne.
  destruct (callback_decoded cfg last result data Hdec) as [log Hcall].
  rewrite Hne in Hcall. cbv zeta in Hcall.
  do 2 eexists. split; [exact Hcall |].
  intros Haddr. apply onReceivedPacket_allowed.
  rewrite get_set_same. exact Haddr.
Qed.

(** C9, as the code has it: a decoded object without [pid] is never a
    duplicate of the initial [lastPacketId]; it passes the duplicate test
    (and is handled when its address is allowed), and [lastPacketId]
    becomes [undefined].  Every following object without [pid] is then a
    duplicate, and [lastPacketId] stays [undefined], until an object with
    a [pid] passes the duplicate test: whether the address filter then
    lets it through or not, [lastPacketId] becomes its [pid], and an
    object without [pid] that follows is no duplicate any more. *)
Theorem missing_pid_until (cfg : Config.t) (r0 : Scan.result)
  (d0 : JS.object) (rs : list Scan.result) (r1 : Scan.result)
  (d1 : JS.object) (p : Z) (r2 : Scan.result) (d2 : JS.object) :
  decodes cfg r0 d0 ->
  JS.get d0 "pid" = JS.Undefined ->
  Forall (fun r => exists data,
              decodes cfg r data /\ JS.get data "pid" = JS.Undefined) rs ->
  decodes cfg r1 d1 ->
  JS.get d1 "pid" = JS.Int p ->
  decodes cfg r2 d2 ->
  JS.get d2 "pid" = JS.Undefined ->
  JS.strict_eq lastPacketId (JS.get d0 "pid") = false /\
  exists x0 x1 x2,
    scan cfg lastPacketId (r0 :: rs) =
    Some (Received x0 :: repeat Duplicate (List.length rs), JS.Undefined) /\
    scan cfg lastPacketId (r0 :: rs ++ [r1]) =
    Some (Received x0 :: repeat Duplicate (List.length rs) ++ [Received x1],
          JS.Int p) /\
    scan cfg lastPacketId (r0 :: rs ++ [r1; r2]) =
    Some (Received x0 :: repeat Duplicate (List.length rs)
            ++ [Received x1; Received x2],
          JS.Undefined) /\
    (address_allowed cfg (Scan.addr r0) -> x0 = Handled) /\
    (address_allowed cfg (Scan.addr r1) -> x1 = Handled) /\
    (address_allowed cfg (Scan.addr r2) -> x2 = Handled).
Proof.
  intros H0 Hp0 Hrs H1 Hp1 H2 Hp2.
  assert (Hfresh : JS.strict_eq lastPacketId (JS.get d0 "pid") = false)
    by (rewrite Hp0; reflexivity).
  destruct (callback_passes cfg lastPacketId r0 d0 H0 Hfresh)
    as [x0 [e0 [Hc0 Ha0]]].
  rewrite Hp0 in Hc0.
  pose proof (scan_without_pid cfg rs Hrs) as Hdups.
  destruct (callback_passes cfg JS.Undefined r1 d1 H1) as [x1 [e1 [Hc1 Ha1]]];
    [rewrite Hp1; reflexivity |].
  rewrite Hp1 in Hc1.
  destruct (callback_passes cfg (JS.Int p) r2 d2 H2) as [x2 [e2 [Hc2 Ha2]]];
    [rewrite Hp2; reflexivity |].
  rewrite Hp2 in Hc2.
  split; [exact Hfresh |].
  exists x0, x1, x2.
  split; [| split; [| split; [| split; [exact Ha0 | split; [exact Ha1 | exact Ha2]]]]].
  - cbn [scan]. rewrite Hc0, Hdups. reflexivity.
  - cbn [scan app]. rewrite Hc0.
    rewrite (scan_app cfg rs [r1] JS.Undefined JS.Undefined (JS.Int p)
               (repeat Duplicate (List.length rs)) [Received x1] Hdups).
    + reflexivity.
    + cbn [scan]. rewrite Hc1. reflexivity.
  - cbn [scan app]. rewrite Hc0.
    rewrite (scan_app cfg rs [r1; r2] JS.Undefined JS.Undefined JS.Undefined
               (repeat Duplicate (List.length rs))
               [Received x1; Received x2] Hdups).
    + reflexivity.
    + cbn [scan]. rewrite Hc1, Hc2. reflexivity.
Qed.

Lemma missing_pid_until_witness :
  exists x0 x1 x2,
    scan (started CONFIG) lastPacketId
      [advert "b0:c7:de:3b:29:15" (-53) [0x40; 0x21; 0x01];
       advert "b0:c7:de:3b:29:15" (-53) [0x40; 0x21; 0x00];
       advert "aa:bc:12:34:56:78" (-60) [0x40; 0x00; 0x05];
       advert "b0:c7:de:3b:29:15" (-53) [0x40; 0x21; 0x01]] =
    Some ([Received x0; Duplicate; Received x1; Received x2], JS.Undefined) /\
    x0 = Handled /\ x2 = Handled.
Proof.
  destruct (missing_pid_until (started CONFIG)
              (advert "b0:c7:de:3b:29:15" (-53) [0x40; 0x21; 0x01])
              [("encryption", JS.Bool false); ("BTHome_version", JS.Int 2);
               ("motion", JS.Int 1)]
              [advert "b0:c7:de:3b:29:15" (-53) [0x40; 0x21; 0x00]]
              (advert "aa:bc:12:34:56:78" (-60) [0x40; 0x00; 0x05])
              [("encryption", JS.Bool false); ("BTHome_version", JS.Int 2);
               ("pid", JS.Int 5)] 5
              (advert "b0:c7:de:3b:29:15" (-53) [0x40; 0x21; 0x01])
              [("encryption", JS.Bool false); ("BTHome_version", JS.Int 2);
               ("motion", JS.Int 1)])
    as [_ [x0 [x1 [x2 [_ [_ [Hall [Ha0 [_ Ha2]]]]]]]]].
  - eexists. exists []. repeat split.
  - reflexivity.
  - repeat constructor.
    exists [("encryption", JS.Bool false); ("BTHome_version", JS.Int 2);
            ("motion", JS.Int 0)].
    split; [eexists; exists []; repeat split | reflexivity].
  - eexists. exists []. repeat split.
  - reflexivity.
  - eexists. exists []. repeat split.
  - reflexivity.
  - exists x0, x1, x2. split; [exact Hall | split].
    + apply Ha0. exists "b0:c7:de:3b:29:15".
      split; [reflexivity | left; reflexivity].
    + apply Ha2. exists "b0:c7:de:3b:29:15".
      split; [reflexivity | left; reflexivity].
Defined.

(** C9, as stated, fails: after two objects without [pid] from the allowed
    address, an object with [pid] 5 from another address is rejected by
    the address filter, not admitted; yet the next object without [pid]
    is handled instead of being left as a duplicate. *)
Lemma missing_pid_counterexample :
  scan (started CONFIG) lastPacketId
    [advert "b0:c7:de:3b:29:15" (-53) [0x40; 0x21; 0x01];
     advert "b0:c7:de:3b:29:15" (-53) [0x40; 0x21; 0x01];
     advert "aa:bc:12:34:56:78" (-60) [0x40; 0x00; 0x05];
     advert "b0:c7:de:3b:29:15" (-53) [0x40; 0x21; 0x01]] =
  Some ([Received Handled; Duplicate; Received Filtered; Received Handled],
        JS.Undefined).
Proof. reflexivity. Qed.

(** C2, as the code has it: [BLEScanCallback] leaves [lastPacketId] as it
    was when it returns before or at the duplicate test; once a decoded
    packet has passed that test, [lastPacketId] is its [pid], a value
    other than the previous one, however [onReceivedPacket] then ends,
    its address filter included. *)
Theorem lastPacketId_updates (cfg : Config.t) (last : JS.value)
  (event : scan_event) (result : Scan.result) (last' : JS.value) (e : exit)
  (effects : list effect) :
  BLEScanCallback cfg last event result = Some (last', e, effects) ->
  match e with
  | Received _ =>
      exists data,
        decodes cfg result data /\
        last' = JS.get data "pid" /\
        JS.strict_eq last last' = false
  | _ => last' = last
  end.
Proof.
  unfold BLEScanCallback.
  destruct (negb (scan_event_eqb event SCAN_RESULT)).
  { intros H. injection H as <- <- _. reflexivity. }
  destruct (Scan.service_data result) as [service_data |] eqn:Hsd.
  2: { intros H. injection H as <- <- _. reflexivity. }
  destruct (JS.is_undefined (JS.get service_data BTHOME_SVC_ID_STR)) eqn:Hdef.
  { intros H. injection H as <- <- _. reflexivity. }
  destruct (unpack cfg (JS.get service_data BTHOME_SVC_ID_STR))
    as [[[data |] log] |] eqn:Hun; [| | discriminate].
  2: { intros H. injection H as <- <- _. reflexivity. }
  destruct (JS.truthy (JS.get data "encryption")) eqn:Henc.
  { intros H. injection H as <- <- _. reflexivity. }
  destruct (JS.strict_eq last (JS.get data "pid")) eqn:Hdup.
  { intros H. injection H as <- <- _. reflexivity. }
  destruct (onReceivedPacket cfg _) as [r eff].
  intros H. injection H as <- <- _.
  exists data. split; [| split; [reflexivity | exact Hdup]].
  exists service_data, log. repeat split; assumption.
Qed.

Lemma lastPacketId_updates_witness :
  exists data,
    decodes (started CONFIG)
      (advert "aa:bc:12:34:56:78" (-53) [0x40; 0x00; 0x05]) data /\
    JS.Int 5 = JS.get data "pid" /\
    JS.strict_eq lastPacketId (JS.Int 5) = false.
Proof.
  apply (lastPacketId_updates (started CONFIG) lastPacketId SCAN_RESULT
           (advert "aa:bc:12:34:56:78" (-53) [0x40; 0x00; 0x05])
           (JS.Int 5) (Received Filtered)
           [ConsoleLog "Info:"
              (Items [JS.Str "Received event from"; JS.Str "aa:bc:12:34:56:78";
                      JS.Str "outside of the allowed addresses"])]).
  reflexivity.
Defined.

(** C2, as stated, fails: a packet that the address filter rejects has
    already replaced [lastPacketId]. *)
Lemma lastPacketId_updates_counterexample :
  exists last' effects,
    BLEScanCallback (started CONFIG) lastPacketId SCAN_RESULT
      (advert "aa:bc:12:34:56:78" (-53) [0x40; 0x00; 0x05]) =
    Some (last', Received Filtered, effects) /\
    last' <> lastPacketId.
Proof.
  eexists. eexists. split; [reflexivity | discriminate].
Qed.

(** * Further properties *)

(** ** The value reader on any buffer *)

Lemma utoi_defined (num bitsz : Z) :
  exists v, BTHomeDecoder.utoi (Some num) bitsz = Some v.
Proof.
  unfold BTHomeDecoder.utoi.
  destruct (negb _); cbn [option_map]; eexists; reflexivity.
Qed.

Lemma getUInt8_defined (buffer : string) :
  1 <= JS.length buffer ->
  exists c rest, buffer = String c rest /\
                 BTHomeDecoder.getUInt8 buffer = Some (byte_of c).
Proof.
  destruct buffer as [| c rest]; unfold JS.length; cbn [String.length].
  - lia.
  - intros _. exists c, rest. split; reflexivity.
Qed.

(** [getBufValue] returns [null] exactly when the buffer is shorter than
    the type takes or the type is none of the six; in every other case it
    returns an integer, never [undefined]. *)
Theorem getBufValue_null_iff (type : Z) (buffer : string) :
  (BTHomeDecoder.getBufValue type buffer = JS.Null <->
   JS.length buffer < getByteSize type \/ ~ known_type type) /\
  (BTHomeDecoder.getBufValue type buffer = JS.Null \/
   exists z, BTHomeDecoder.getBufValue type buffer = JS.Int z).
Proof.
  unfold known_type.
  destruct (Z.ltb_spec (JS.length buffer) (getByteSize type)) as [Hshort | Hlong].
  - assert (Hnull : BTHomeDecoder.getBufValue type buffer = JS.Null).
    { unfold BTHomeDecoder.getBufValue.
      apply Z.ltb_lt in Hshort. rewrite Hshort. reflexivity. }
    rewrite Hnull. split; [split; auto | left; reflexivity].
  - rewrite (getBufValue_long type buffer Hlong).
    assert (Hcases : type = int24 \/ type = uint24 \/ type = int16 \/
                     type = uint16 \/ type = int8 \/ type = uint8 \/
                     ~ 0 <= type <= 5)
      by (unfold int24, uint24, int16, uint16, int8, uint8; lia).
    destruct Hcases as [-> | [-> | [-> | [-> | [-> | [-> | Hout]]]]]];
      cbn [Z.eqb Pos.eqb int24 uint24 int16 uint16 int8 uint8].
    + destruct (utoi_defined (BTHomeDecoder.getUInt24LE buffer) 24) as [v Hv].
      unfold BTHomeDecoder.getInt24LE. rewrite Hv. cbn [BTHomeDecoder.number].
      split; [split; [discriminate | intros [H | H];
                      [| unfold int24, uint24, int16, uint16, int8, uint8 in H]; lia]
             | right; eexists; reflexivity].
    + split; [split; [discriminate | intros [H | H];
                      [| unfold int24, uint24, int16, uint16, int8, uint8 in H]; lia]
             | right; eexists; reflexivity].
    + destruct (utoi_defined (BTHomeDecoder.getUInt16LE buffer) 16) as [v Hv].
      unfold BTHomeDecoder.getInt16LE. rewrite Hv. cbn [BTHomeDecoder.number].
      split; [split; [discriminate | intros [H | H];
                      [| unfold int24, uint24, int16, uint16, int8, uint8 in H]; lia]
             | right; eexists; reflexivity].
    + split; [split; [discriminate | intros [H | H];
                      [| unfold int24, uint24, int16, uint16, int8, uint8 in H]; lia]
             | right; eexists; reflexivity].
    + destruct (getUInt8_defined buffer Hlong) as [c [rest [-> Hc]]].
      destruct (utoi_defined (byte_of c) 8) as [v Hv].
      unfold BTHomeDecoder.getInt8. rewrite Hc, Hv. cbn [BTHomeDecoder.number].
      split; [split; [discriminate | intros [H | H];
                      [| unfold int24, uint24, int16, uint16, int8, uint8 in H]; lia]
             | right; eexists; reflexivity].
    + destruct (getUInt8_defined buffer Hlong) as [c [rest [-> Hc]]].
      rewrite Hc. cbn [BTHomeDecoder.number].
      split; [split; [discriminate | intros [H | H];
                      [| unfold int24, uint24, int16, uint16, int8, uint8 in H]; lia]
             | right; eexists; reflexivity].
    + assert (Hnull : (if type =? 5 then BTHomeDecoder.number
                                            (BTHomeDecoder.getInt24LE buffer)
                       else if type =? 4
                       then JS.Int (BTHomeDecoder.getUInt24LE buffer)
                       else if type =? 3
                       then BTHomeDecoder.number (BTHomeDecoder.getInt16LE buffer)
                       else if type =? 2
                       then JS.Int (BTHomeDecoder.getUInt16LE buffer)
                       else if type =? 1
                       then BTHomeDecoder.number (BTHomeDecoder.getInt8 buffer)
                       else if type =? 0
                       then BTHomeDecoder.number (BTHomeDecoder.getUInt8 buffer)
                       else JS.Null) = JS.Null).
      { repeat match goal with
               | |- context [type =? ?k] =>
                   destruct (Z.eqb_spec type k) as [Heq | _]; [lia |]
               end.
        reflexivity. }
      unfold int24, uint24, int16, uint16, int8, uint8. rewrite Hnull.
      split; [split; auto | left; reflexivity].
Qed.

Lemma buffer_long (k : nat) (buffer : string) :
  Z.of_nat k <= JS.length buffer ->
  exists value rest,
    buffer = (value ++ rest)%string /\ String.length value = k.
Proof.
  revert buffer. induction k as [| k IH]; intros buffer Hlen.
  - exists "", buffer. split; reflexivity.
  - destruct buffer as [| c s]; unfold JS.length in Hlen;
      cbn [String.length] in Hlen; [lia |].
    destruct (IH s) as [value [rest [-> Hk]]]; [unfold JS.length; lia |].
    exists (String c value), rest. cbn [append String.length].
    split; [reflexivity | rewrite Hk; reflexivity].
Qed.

(** What each of the six readers returns on a buffer that starts with the
    bytes it takes. *)
Lemma getBufValue_bytes (c0 c1 c2 : ascii) (rest : string) :
  let b0 := byte_of c0 in
  let w := byte_of c0 + 256 * byte_of c1 in
  let t := byte_of c0 + 256 * (byte_of c1 + 256 * byte_of c2) in
  BTHomeDecoder.getBufValue uint8 (String c0 rest) = JS.Int b0 /\
  BTHomeDecoder.getBufValue int8 (String c0 rest) =
  JS.Int (if 128 <=? b0 then b0 - 256 else b0) /\
  BTHomeDecoder.getBufValue uint16 (String c0 (String c1 rest)) = JS.Int w /\
  BTHomeDecoder.getBufValue int16 (String c0 (String c1 rest)) =
  JS.Int (if 32768 <=? w then w - 65536 else w) /\
  BTHomeDecoder.getBufValue uint24 (String c0 (String c1 (String c2 rest))) =
  JS.Int t /\
  BTHomeDecoder.getBufValue int24 (String c0 (String c1 (String c2 rest))) =
  JS.Int (if 8388608 <=? t then t - 16777216 else t).
Proof.
  pose proof (byte_of_range c0) as H0. pose proof (byte_of_range c1) as H1.
  pose proof (byte_of_range c2) as H2.
  assert (L1 : forall ty, getByteSize ty <= 1 ->
                          getByteSize ty <= JS.length (String c0 rest)).
  { intros ty Hty. unfold JS.length. cbn [String.length]. lia. }
  assert (L2 : forall ty, getByteSize ty <= 2 ->
                          getByteSize ty <= JS.length (String c0 (String c1 rest))).
  { intros ty Hty. unfold JS.length. cbn [String.length]. lia. }
  assert (L3 : forall ty, getByteSize ty <= 3 ->
                          getByteSize ty
                          <= JS.length (String c0 (String c1 (String c2 rest)))).
  { intros ty Hty. unfold JS.length. cbn [String.length]. lia. }
  cbv zeta. repeat split.
  - apply getBufValue_uint8.
  - rewrite getBufValue_long by (apply L1; cbn; lia).
    cbn [Z.eqb Pos.eqb int24 uint24 int16 uint16 int8 uint8].
    unfold BTHomeDecoder.getInt8. rewrite getUInt8_le.
    rewrite utoi_spec by (change (2 ^ 8) with 256; lia). reflexivity.
  - rewrite getBufValue_long by (apply L2; cbn; lia).
    cbn [Z.eqb Pos.eqb int24 uint24 int16 uint16 int8 uint8].
    rewrite getUInt16LE_le. reflexivity.
  - rewrite getBufValue_long by (apply L2; cbn; lia).
    cbn [Z.eqb Pos.eqb int24 uint24 int16 uint16 int8 uint8].
    unfold BTHomeDecoder.getInt16LE. rewrite getUInt16LE_le.
    rewrite utoi_spec by (change (2 ^ 16) with 65536; lia). reflexivity.
  - rewrite getBufValue_long by (apply L3; cbn; lia).
    cbn [Z.eqb Pos.eqb int24 uint24 int16 uint16 int8 uint8].
    rewrite getUInt24LE_le. reflexivity.
  - rewrite getBufValue_long by (apply L3; cbn; lia).
    cbn [Z.eqb Pos.eqb int24 uint24 int16 uint16 int8 uint8].
    unfold BTHomeDecoder.getInt24LE. rewrite getUInt24LE_le.
    rewrite utoi_spec by (change (2 ^ 24) with 16777216; lia). reflexivity.
Qed.

(** [getBufValue] looks at the first [getByteSize( type )] bytes only:
    what follows them does not change the value read. *)
Theorem getBufValue_first_bytes (type : Z) (value rest : string) :
  known_type type ->
  JS.length value = getByteSize type ->
  BTHomeDecoder.getBufValue type (value ++ rest)%string =
  BTHomeDecoder.getBufValue type value.
Proof.
  unfold known_type, JS.length. intros Hty Hlen.
  assert (Hcases : type = uint8 \/ type = int8 \/ type = uint16 \/
                   type = int16 \/ type = uint24 \/ type = int24)
    by (unfold int24, uint24, int16, uint16, int8, uint8; lia).
  destruct Hcases as [-> | [-> | [-> | [-> | [-> | ->]]]]];
    match type of Hlen with
    | _ = getByteSize ?ty =>
        let w := eval vm_compute in (getByteSize ty) in
        change (getByteSize ty) with w in Hlen
    end.
  - destruct value as [| c0 [| ? ?]]; cbn [String.length] in Hlen; try lia.
    cbn [append].
    rewrite (proj1 (getBufValue_bytes c0 c0 c0 rest)).
    rewrite (proj1 (getBufValue_bytes c0 c0 c0 "")). reflexivity.
  - destruct value as [| c0 [| ? ?]]; cbn [String.length] in Hlen; try lia.
    cbn [append].
    rewrite (proj1 (proj2 (getBufValue_bytes c0 c0 c0 rest))).
    rewrite (proj1 (proj2 (getBufValue_bytes c0 c0 c0 ""))). reflexivity.
  - destruct value as [| c0 [| c1 [| ? ?]]]; cbn [String.length] in Hlen;
      try lia.
    cbn [append].
    rewrite (proj1 (proj2 (proj2 (getBufValue_bytes c0 c1 c0 rest)))).
    rewrite (proj1 (proj2 (proj2 (getBufValue_bytes c0 c1 c0 "")))).
    reflexivity.
  - destruct value as [| c0 [| c1 [| ? ?]]]; cbn [String.length] in Hlen;
      try lia.
    cbn [append].
    rewrite (proj1 (proj2 (proj2 (proj2 (getBufValue_bytes c0 c1 c0 rest))))).
    rewrite (proj1 (proj2 (proj2 (proj2 (getBufValue_bytes c0 c1 c0 ""))))).
    reflexivity.
  - destruct value as [| c0 [| c1 [| c2 [| ? ?]]]];
      cbn [String.length] in Hlen; try lia.
    cbn [append].
    rewrite (proj1 (proj2 (proj2 (proj2 (proj2
               (getBufValue_bytes c0 c1 c2 rest)))))).
    rewrite (proj1 (proj2 (proj2 (proj2 (proj2
               (getBufValue_bytes c0 c1 c2 "")))))).
    reflexivity.
  - destruct value as [| c0 [| c1 [| c2 [| ? ?]]]];
      cbn [String.length] in Hlen; try lia.
    cbn [append].
    rewrite (proj2 (proj2 (proj2 (proj2 (proj2
               (getBufValue_bytes c0 c1 c2 rest)))))).
    rewrite (proj2 (proj2 (proj2 (proj2 (proj2
               (getBufValue_bytes c0 c1 c2 "")))))).
    reflexivity.
Qed.

Lemma getBufValue_first_bytes_witness :
  BTHomeDecoder.getBufValue int16 (bytes [0x9c; 0xff; 0x21; 0x01]) =
  BTHomeDecoder.getBufValue int16 (bytes [0x9c; 0xff]).
Proof.
  apply (getBufValue_first_bytes int16 (bytes [0x9c; 0xff]) (bytes [0x21; 0x01])).
  - unfold known_type, int16. lia.
  - reflexivity.
Defined.

Lemma byte_of_ascii (x : Z) :
  0 <= x < 256 -> byte_of (ascii_of_N (Z.to_N x)) = x.
Proof.
  intros Hx. unfold byte_of.
  rewrite N_ascii_embedding by lia. lia.
Qed.

(** Round trip with the test encoder: for each width 1, 2, 3 a value in
    the unsigned range is read back by the unsigned reader, and a value of
    the signed range, written in two's complement, by the signed reader;
    bytes after the value do not matter. *)
Theorem reader_round_trip (width : nat) (v : Z) (rest : string) :
  (1 <= width <= 3)%nat ->
  (0 <= v < 2 ^ (8 * Z.of_nat width) ->
   BTHomeDecoder.getBufValue (unsigned_type width) (le_bytes width v ++ rest)
   = JS.Int v) /\
  (- 2 ^ (8 * Z.of_nat width - 1) <= v < 2 ^ (8 * Z.of_nat width - 1) ->
   BTHomeDecoder.getBufValue (signed_type width) (le_bytes width v ++ rest)
   = JS.Int v).
Proof.
  intros Hw.
  assert (Hcase : width = 1%nat \/ width = 2%nat \/ width = 3%nat) by lia.
  assert (Hm : forall x, 0 <= x mod 256 < 256)
    by (intros x; apply Z.mod_pos_bound; lia).
  destruct Hcase as [-> | [-> | ->]];
    cbn [le_bytes append unsigned_type signed_type].
  - change (2 ^ (8 * Z.of_nat 1)) with 256.
    change (2 ^ (8 * Z.of_nat 1 - 1)) with 128.
    pose proof (getBufValue_bytes (ascii_of_N (Z.to_N (v mod 256)))
                  "000"%char "000"%char rest) as [Hu [Hs _]].
    rewrite byte_of_ascii in Hu, Hs by apply Hm.
    split; intros Hv.
    + rewrite Hu. f_equal. apply Z.mod_small. lia.
    + rewrite Hs. f_equal.
      destruct (Z.leb_spec 128 (v mod 256)); Z.div_mod_to_equations; lia.
  - change (2 ^ (8 * Z.of_nat 2)) with 65536.
    change (2 ^ (8 * Z.of_nat 2 - 1)) with 32768.
    pose proof (getBufValue_bytes (ascii_of_N (Z.to_N (v mod 256)))
                  (ascii_of_N (Z.to_N ((v / 256) mod 256)))
                  "000"%char rest) as [_ [_ [Hu [Hs _]]]].
    rewrite !byte_of_ascii in Hu, Hs by apply Hm.
    split; intros Hv.
    + rewrite Hu. f_equal. Z.div_mod_to_equations. lia.
    + rewrite Hs. f_equal.
      destruct (Z.leb_spec 32768 (v mod 256 + 256 * ((v / 256) mod 256)));
        Z.div_mod_to_equations; lia.
  - change (2 ^ (8 * Z.of_nat 3)) with 16777216.
    change (2 ^ (8 * Z.of_nat 3 - 1)) with 8388608.
    pose proof (getBufValue_bytes (ascii_of_N (Z.to_N (v mod 256)))
                  (ascii_of_N (Z.to_N ((v / 256) mod 256)))
                  (ascii_of_N (Z.to_N ((v / 256 / 256) mod 256)))
                  rest) as [_ [_ [_ [_ [Hu Hs]]]]].
    rewrite !byte_of_ascii in Hu, Hs by apply Hm.
    split; intros Hv.
    + rewrite Hu. f_equal. Z.div_mod_to_equations. lia.
    + rewrite Hs. f_equal.
      destruct (Z.leb_spec 8388608
                  (v mod 256 +
                   256 * ((v / 256) mod 256 + 256 * ((v / 256 / 256) mod 256))));
        Z.div_mod_to_equations; lia.
Qed.

Lemma reader_round_trip_witness :
  BTHomeDecoder.getBufValue uint24 (le_bytes 3 109 ++ "") = JS.Int 109 /\
  BTHomeDecoder.getBufValue int16 (le_bytes 2 (-1234) ++ bytes [0x21; 0x01]) =
  JS.Int (-1234).
Proof.
  split.
  - apply (proj1 (reader_round_trip 3 109 "" ltac:(lia))). vm_compute.
    split; [discriminate | reflexivity].
  - apply (proj2 (reader_round_trip 2 (-1234) (bytes [0x21; 0x01]) ltac:(lia))).
    vm_compute. split; [discriminate | reflexivity].
Defined.

(** ** More on the decoder *)

(** [unpack] returns [null] exactly for an input that is not a string, for
    the empty string, and for a string whose first byte, shifted right by
    5, is not 2; nothing is logged then. *)
Theorem unpack_null_iff (cfg : Config.t) (input : JS.value) :
  ((exists log, unpack cfg input = Some (None, log)) <->
   match input with
   | JS.Str (String header _) => Z.shiftr (byte_of header) 5 <> 2
   | _ => True
   end) /\
  (forall log, unpack cfg input = Some (None, log) -> log = []).
Proof.
  destruct input as [| | b | z | x | s];
    try (split; [split; [auto | intros _; exists []; reflexivity]
                | intros log H; injection H as <-; reflexivity]).
  destruct s as [| header rest].
  - split; [split; [auto | intros _; exists []; reflexivity]
           | intros log H; injection H as <-; reflexivity].
  - rewrite unpack_header.
    destruct (Z.eqb_spec (Z.shiftr (byte_of header) 5) 2) as [Hv | Hv];
      cbn [negb].
    + destruct (Z.testbit (byte_of header) 0).
      * split; [split; [intros [log H]; discriminate H | intros H; lia]
               | intros log H; discriminate H].
      * destruct (unpack_while cfg (String.length rest) rest header_fields)
          as [[r l] |].
        -- split; [split; [intros [log H]; discriminate H | intros H; lia]
                  | intros log H; discriminate H].
        -- split; [split; [intros [log H]; discriminate H | intros H; lia]
                  | intros log H; discriminate H].
    + split; [split; [intros _; exact Hv | intros _; exists []; reflexivity]
             | intros log H; injection H as <-; reflexivity].
Qed.

Lemma BTH_name (k : Z) (e : Field.entry) :
  lookup BTH k = Some e ->
  In (Field.n e) BTH_names /\
  Field.n e <> "encryption" /\ Field.n e <> "BTHome_version".
Proof.
  unfold BTH. cbn [lookup].
  repeat (destruct (_ =? k);
          [intros H; injection H as <-; cbn [Field.n];
           split; [vm_compute; tauto | split; discriminate] |]).
  discriminate.
Qed.

Lemma keys_set (o : JS.object) (k : string) (v : JS.value) :
  keys (JS.set o k v) = if in_dec string_dec k (keys o) then keys o
                        else keys o ++ [k].
Proof.
  unfold keys. induction o as [| [k' v'] o IH]; cbn [JS.set map fst].
  - destruct (in_dec string_dec k []) as [[] | _]. reflexivity.
  - destruct (String.eqb_spec k' k) as [-> | Hne]; cbn [map fst].
    + destruct (in_dec string_dec k (k :: map fst o)) as [_ | Hnot];
        [reflexivity | exfalso; apply Hnot; left; reflexivity].
    + rewrite IH.
      destruct (in_dec string_dec k (map fst o)) as [Hin | Hnot];
        destruct (in_dec string_dec k (k' :: map fst o)) as [Hin' | Hnot'];
        try reflexivity.
      * exfalso. apply Hnot'. right. exact Hin.
      * exfalso. destruct Hin' as [Heq | Hin']; [congruence | exact (Hnot Hin')].
Qed.

Lemma decoded_header : decoded header_fields.
Proof.
  unfold decoded. split; [reflexivity | split; [reflexivity | split]].
  - cbn. constructor; [intros [H | []]; discriminate H |].
    constructor; [intros [] | constructor].
  - cbn. constructor; [left; reflexivity |].
    constructor; [right; left; reflexivity | constructor].
Qed.

Lemma decoded_set (o : JS.object) (k : Z) (e : Field.entry) (v : JS.value) :
  lookup BTH k = Some e -> decoded o -> decoded (JS.set o (Field.n e) v).
Proof.
  intros Hlook [Henc [Hver [Hnd Hall]]].
  destruct (BTH_name k e Hlook) as [Hin [Hne1 Hne2]].
  unfold decoded. rewrite !get_set_other by congruence.
  rewrite keys_set.
  destruct (in_dec string_dec (Field.n e) (keys o)) as [Hk | Hk].
  - repeat split; assumption.
  - repeat split; try assumption.
    + apply NoDup_app; [exact Hnd | repeat constructor; intros [] |].
      intros x Hx [<- | []]. exact (Hk Hx).
    + apply Forall_app. split; [exact Hall |].
      constructor; [right; right; exact Hin | constructor].
Qed.

Lemma unpack_body_decoded (cfg : Config.t) (buffer buffer' : string)
  (result result' : JS.object) :
  unpack_body cfg buffer result = Next buffer' result' ->
  decoded result -> decoded result'.
Proof.
  unfold unpack_body. destruct buffer as [| c s]; [cbn; discriminate |].
  change (JS.at_ (String c s) 0) with (Some (byte_of c)). cbv beta iota zeta.
  destruct (lookup BTH (byte_of c)) as [e |] eqn:Hlook; [| discriminate].
  destruct (JS.strict_eq _ JS.Null); [discriminate |].
  intros H Hr. injection H as _ <-.
  apply (decoded_set _ _ _ _ Hlook Hr).
Qed.

Lemma unpack_while_decoded (cfg : Config.t) (fuel : nat) :
  forall (buffer : string) (result final : JS.object) (log : list effect),
    unpack_while cfg fuel buffer result = Some (final, log) ->
    decoded result -> decoded final.
Proof.
  induction fuel as [| fuel IH]; intros buffer result final log;
    cbn [unpack_while]; destruct (0 <? JS.length buffer);
    try discriminate;
    try (intros H Hr; injection H as <- _; exact Hr).
  destruct (unpack_body cfg buffer result) as [l | b' r'] eqn:Hbody.
  - intros H Hr. injection H as <- _. exact Hr.
  - intros H Hr. apply (IH _ _ _ _ H).
    apply (unpack_body_decoded _ _ _ _ _ Hbody Hr).
Qed.

(** Every object that [unpack] returns has [BTHome_version] 2 and a
    boolean [encryption]; when [encryption] is set the object has these
    two properties only, otherwise each of its properties is a header
    field or a field name of [BTH], and each occurs once. *)
Theorem unpack_object (cfg : Config.t) (input : JS.value) (data : JS.object)
  (log : list effect) :
  unpack cfg input = Some (Some data, log) ->
  JS.get data "BTHome_version" = JS.Int 2 /\
  (data = [("encryption", JS.Bool true); ("BTHome_version", JS.Int 2)] \/
   JS.get data "encryption" = JS.Bool false) /\
  NoDup (keys data) /\
  Forall (fun k => k = "encryption" \/ k = "BTHome_version" \/ In k BTH_names)
    (keys data).
Proof.
  destruct input as [| | b | z | x | s]; try discriminate.
  destruct s as [| header rest]; [discriminate |].
  rewrite unpack_header.
  destruct (negb (Z.shiftr (byte_of header) 5 =? 2)); [discriminate |].
  destruct (Z.testbit (byte_of header) 0).
  - intros H. injection H as <- _.
    split; [reflexivity | split; [left; reflexivity | split]].
    + cbn. constructor; [intros [H | []]; discriminate H |].
      constructor; [intros [] | constructor].
    + cbn. constructor; [left; reflexivity |].
      constructor; [right; left; reflexivity | constructor].
  - destruct (unpack_while cfg (String.length rest) rest header_fields)
      as [[r l] |] eqn:Hrun; [| discriminate].
    intros H. injection H as <- _.
    destruct (unpack_while_decoded _ _ _ _ _ _ Hrun decoded_header)
      as [Henc [Hver [Hnd Hall]]].
    repeat split; try assumption. right. exact Henc.
Qed.

Lemma unpack_object_witness :
  JS.get [("encryption", JS.Bool false); ("BTHome_version", JS.Int 2);
          ("pid", JS.Int 5); ("motion", JS.Int 1)] "BTHome_version" = JS.Int 2 /\
  NoDup (keys [("encryption", JS.Bool false); ("BTHome_version", JS.Int 2);
               ("pid", JS.Int 5); ("motion", JS.Int 1)]).
Proof.
  destruct (unpack_object CONFIG
              (JS.Str (bytes [0x40; 0x00; 0x04; 0x21; 0x00; 0x00; 0x05;
                              0x21; 0x01]))
              [("encryption", JS.Bool false); ("BTHome_version", JS.Int 2);
               ("pid", JS.Int 5); ("motion", JS.Int 1)] [] eq_refl)
    as [Hver [_ [Hnd _]]].
  split; [exact Hver | exact Hnd].
Defined.

Lemma append_empty (s : string) : (s ++ "")%string = s.
Proof.
  induction s as [| c s IH]; cbn [append]; [reflexivity |].
  rewrite IH. reflexivity.
Qed.

Lemma unpack_fields (cfg : Config.t) (header : ascii) (pre : string) :
  plain_v2 header ->
  fields pre ->
  exists result,
    unpack cfg (JS.Str (String header pre)) = Some (Some result, []) /\
    forall suffix,
      unpack cfg (JS.Str (String header (pre ++ suffix))) =
      match unpack_while cfg (String.length suffix) suffix result with
      | Some (final, log) => Some (Some final, log)
      | None => None
      end.
Proof.
  intros [Hv Henc] Hpre.
  destruct (fields_prefix cfg pre Hpre header_fields) as [result Hrun].
  exists result. split.
  - rewrite unpack_header, Hv, Henc. cbn [Z.eqb Pos.eqb negb].
    pose proof (Hrun "" (String.length pre)) as H0.
    rewrite append_empty in H0. rewrite H0 by apply Nat.le_refl. reflexivity.
  - intros suffix. rewrite unpack_header, Hv, Henc. cbn [Z.eqb Pos.eqb negb].
    rewrite (Hrun suffix _ (Nat.le_refl _)). reflexivity.
Qed.

(** Decoding composes field by field: after a version-2 unencrypted header
    and complete fields [pre], one more complete field stores its value
    under its name in the object decoded from [pre]; a name stored before
    keeps its place and takes the new value. *)
Theorem unpack_append_field (cfg : Config.t) (header tag : ascii)
  (pre value : string) (e : Field.entry) :
  plain_v2 header ->
  fields pre ->
  lookup BTH (byte_of tag) = Some e ->
  JS.length value = getByteSize (Field.t e) ->
  exists result,
    unpack cfg (JS.Str (String header pre)) = Some (Some result, []) /\
    unpack cfg (JS.Str (String header (pre ++ String tag value))) =
    Some (Some (JS.set result (Field.n e) (field_value e value)), []) /\
    JS.get (JS.set result (Field.n e) (field_value e value)) (Field.n e) =
    field_value e value.
Proof.
  intros Hhdr Hpre Hlook Hlen.
  destruct (unpack_fields cfg header pre Hhdr Hpre) as [result [Hres Hcont]].
  exists result. split; [exact Hres | split; [| apply get_set_same]].
  rewrite Hcont. cbn [String.length unpack_while].
  change (0 <? JS.length (String tag value)) with true. cbv iota.
  pose proof (unpack_body_field cfg tag e value "" result Hlook Hlen) as Hbody.
  rewrite append_empty in Hbody. rewrite Hbody.
  destruct (String.length value); reflexivity.
Qed.

Lemma unpack_append_field_witness :
  unpack CONFIG (JS.Str (bytes [0x40; 0x00; 0x05; 0x21; 0x00; 0x00; 0x09])) =
  Some (Some [("encryption", JS.Bool false); ("BTHome_version", JS.Int 2);
              ("pid", JS.Int 9); ("motion", JS.Int 0)], []).
Proof.
  destruct (unpack_append_field CONFIG "@"%char (ascii_of_N 0)
              (bytes [0x00; 0x05; 0x21; 0x00]) (bytes [0x09])
              (Field.Entry "pid" uint8 None None))
    as [result [Hpre [Hall _]]].
  - split; reflexivity.
  - apply (fields_cons (ascii_of_N 0) (Field.Entry "pid" uint8 None None)
             (bytes [0x05]) (bytes [0x21; 0x00]));
      [reflexivity | reflexivity |].
    apply (fields_cons (ascii_of_N 33) (Field.Entry "motion" uint8 None None)
             (bytes [0x00]) ""); [reflexivity | reflexivity | apply fields_nil].
  - reflexivity.
  - reflexivity.
  - change (bytes [0x40; 0x00; 0x05; 0x21; 0x00; 0x00; 0x09])
      with (String "@" (bytes [0x00; 0x05; 0x21; 0x00]
                        ++ String (ascii_of_N 0) (bytes [0x09]))).
    rewrite Hall.
    change (bytes [0x40; 0x00; 0x05; 0x21; 0x00])
      with (String "@" (bytes [0x00; 0x05; 0x21; 0x00])) in Hpre.
    vm_compute in Hpre. injection Hpre as <-. reflexivity.
Defined.

(** Nothing after an unknown tag is decoded: after a version-2 unencrypted
    header and complete fields [pre], a tag that [BTH] does not have ends
    the decoding with the object decoded from [pre], whatever bytes
    follow the tag; [logger] is called once with "unknown type". *)
Theorem unpack_unknown_tag (cfg : Config.t) (header tag : ascii)
  (pre rest : string) :
  plain_v2 header ->
  fields pre ->
  lookup BTH (byte_of tag) = None ->
  exists result,
    unpack cfg (JS.Str (String header pre)) = Some (Some result, []) /\
    unpack cfg (JS.Str (String header (pre ++ String tag rest))) =
    Some (Some result, logger cfg (Text "unknown type") (JS.Str "BTH")).
Proof.
  intros Hhdr Hpre Hlook.
  destruct (unpack_fields cfg header pre Hhdr Hpre) as [result [Hres Hcont]].
  exists result. split; [exact Hres |].
  rewrite Hcont. cbn [String.length unpack_while].
  change (0 <? JS.length (String tag rest)) with true. cbv iota.
  rewrite (unpack_body_unknown cfg tag rest result Hlook). reflexivity.
Qed.

Lemma unpack_unknown_tag_witness :
  unpack CONFIG (JS.Str (bytes [0x40; 0x01; 0x64; 0x04; 0x13; 0x8a; 0x01])) =
  Some (Some [("encryption", JS.Bool false); ("BTHome_version", JS.Int 2);
              ("battery", JS.Int 100)],
        [ConsoleLog "BTH:" (Text "unknown type")]).
Proof.
  destruct (unpack_unknown_tag CONFIG "@"%char (ascii_of_N 4)
              (bytes [0x01; 0x64]) (bytes [0x13; 0x8a; 0x01]))
    as [result [Hpre Hall]].
  - split; reflexivity.
  - apply (fields_cons (ascii_of_N 1)
             (Field.Entry "battery" uint8 None (Some "%"))
             (bytes [0x64]) ""); [reflexivity | reflexivity | apply fields_nil].
  - reflexivity.
  - change (bytes [0x40; 0x01; 0x64; 0x04; 0x13; 0x8a; 0x01])
      with (String "@" (bytes [0x01; 0x64]
                        ++ String (ascii_of_N 4) (bytes [0x13; 0x8a; 0x01]))).
    rewrite Hall.
    change (bytes [0x40; 0x01; 0x64]) with (String "@" (bytes [0x01; 0x64]))
      in Hpre.
    vm_compute in Hpre. injection Hpre as <-. reflexivity.
Defined.

Lemma unpack_body_config (cfg cfg' : Config.t) (buffer : string)
  (result : JS.object) :
  match unpack_body cfg buffer result with
  | Next buffer' result' => unpack_body cfg' buffer result = Next buffer' result'
  | Break log =>
      (log = [] \/
       Config.debug cfg = true /\ log = [ConsoleLog "BTH:" (Text "unknown type")])
      /\ exists log', unpack_body cfg' buffer result = Break log'
  end.
Proof.
  unfold unpack_body.
  destruct (match JS.at_ buffer 0 with
            | Some k => lookup BTH k
            | None => None
            end) as [e |].
  - destruct (JS.strict_eq _ JS.Null).
    + split; [left; reflexivity | eexists; reflexivity].
    + reflexivity.
  - split; [| eexists; reflexivity].
    unfold logger. destruct (Config.debug cfg); cbn [negb]; auto.
Qed.

Lemma unpack_while_config (cfg cfg' : Config.t) (fuel : nat) :
  forall (buffer : string) (result final : JS.object) (log : list effect),
    unpack_while cfg fuel buffer result = Some (final, log) ->
    (log = [] \/
     Config.debug cfg = true /\ log = [ConsoleLog "BTH:" (Text "unknown type")])
    /\ exists log', unpack_while cfg' fuel buffer result = Some (final, log').
Proof.
  induction fuel as [| fuel IH]; intros buffer result final log;
    cbn [unpack_while]; destruct (0 <? JS.length buffer);
    try discriminate;
    try (intros H; injection H as <- <-;
         split; [left; reflexivity | eexists; reflexivity]).
  pose proof (unpack_body_config cfg cfg' buffer result) as Hbody.
  destruct (unpack_body cfg buffer result) as [l | b' r'].
  - destruct Hbody as [Hl [l' ->]].
    intros H. injection H as <- <-. split; [exact Hl | eexists; reflexivity].
  - rewrite Hbody. apply IH.
Qed.

Lemma unpack_log_shape (cfg : Config.t) (input : JS.value)
  (res : option JS.object) (log : list effect) :
  unpack cfg input = Some (res, log) ->
  (log = [] \/
   Config.debug cfg = true /\ log = [ConsoleLog "BTH:" (Text "unknown type")]) /\
  forall cfg', exists log', unpack cfg' input = Some (res, log').
Proof.
  destruct input as [| | b | z | x | s];
    try (intros H; injection H as <- <-;
         split; [left; reflexivity | intros cfg'; eexists; reflexivity]).
  destruct s as [| header rest].
  - intros H; injection H as <- <-.
    split; [left; reflexivity | intros cfg'; eexists; reflexivity].
  - rewrite unpack_header.
    destruct (negb (Z.shiftr (byte_of header) 5 =? 2)) eqn:Hv.
    { intros H; injection H as <- <-.
      split; [left; reflexivity |].
      intros cfg'. rewrite unpack_header, Hv. eexists; reflexivity. }
    destruct (Z.testbit (byte_of header) 0) eqn:Henc.
    { intros H; injection H as <- <-.
      split; [left; reflexivity |].
      intros cfg'. rewrite unpack_header, Hv, Henc. eexists; reflexivity. }
    destruct (unpack_while cfg (String.length rest) rest header_fields)
      as [[r l] |] eqn:Hrun; [| discriminate].
    intros H; injection H as <- <-.
    split; [apply (unpack_while_config cfg cfg _ _ _ _ _ Hrun) |].
    intros cfg'. rewrite unpack_header, Hv, Henc.
    destruct (unpack_while_config cfg cfg' _ _ _ _ _ Hrun) as [_ [l' ->]].
    eexists; reflexivity.
Qed.

(** The configuration only decides what [unpack] logs: the value returned
    is the same under every configuration; the log is empty or the one
    line "unknown type", and it is empty when [debug] is off. *)
Theorem unpack_config (cfg : Config.t) (input : JS.value)
  (res : option JS.object) (log : list effect) :
  unpack cfg input = Some (res, log) ->
  (log = [] \/
   Config.debug cfg = true /\ log = [ConsoleLog "BTH:" (Text "unknown type")]) /\
  forall cfg', exists log', unpack cfg' input = Some (res, log').
Proof. apply unpack_log_shape. Qed.

Lemma unpack_config_witness :
  exists log',
    unpack {| Config.debug := false; Config.active := false;
              Config.allowedMacAddresses := Config.NoFilter;
              Config.illuThreshold := 15;
              Config._processedMacAddresses := Config.NoFilter |}
      (JS.Str (bytes [0x40; 0x00; 0x05; 0xff])) =
    Some (Some [("encryption", JS.Bool false); ("BTHome_version", JS.Int 2);
                ("pid", JS.Int 5)], log').
Proof.
  apply (unpack_config CONFIG (JS.Str (bytes [0x40; 0x00; 0x05; 0xff]))
           (Some [("encryption", JS.Bool false); ("BTHome_version", JS.Int 2);
                  ("pid", JS.Int 5)])
           [ConsoleLog "BTH:" (Text "unknown type")] eq_refl).
Defined.

(** ** Dispatch *)

Lemma logger_no_call (cfg : Config.t) (msg : message) (prefix : JS.value)
  (method : string) (params : JS.object) :
  ~ In (ShellyCall method params) (logger cfg msg prefix).
Proof.
  unfold logger. destruct (negb (Config.debug cfg)); cbn [In].
  - tauto.
  - intros [H | []]. discriminate H.
Qed.

Lemma motionHandler_call (cfg : Config.t) (motion : bool) (data : JS.object)
  (method : string) (params : JS.object) :
  In (ShellyCall method params) (motionHandler cfg motion data) <->
  motion = true /\
  JS.lt_num (JS.get data "illuminance") (Config.illuThreshold cfg) = true /\
  method = "Switch.Set" /\ params = [("id", JS.Int 0); ("on", JS.Bool true)].
Proof.
  unfold motionHandler.
  destruct motion;
    destruct (JS.lt_num (JS.get data "illuminance") (Config.illuThreshold cfg));
    cbn [andb In]; try (split; [tauto | intros [? [? _]]; discriminate]).
  rewrite in_app_iff. cbn [In]. split.
  - intros [H | [H | []]]; [exfalso; exact (logger_no_call _ _ _ _ _ H) |].
    injection H as <- <-. auto.
  - intros [_ [_ [-> ->]]]. right. left. reflexivity.
Qed.

Lemma switch_call (cfg : Config.t) (data : JS.object) (method : string)
  (params : JS.object) :
  In (ShellyCall method params) (snd (onReceivedPacket cfg data)) <->
  fst (onReceivedPacket cfg data) = Handled /\
  JS.strict_eq (JS.get data "motion") (JS.Int 1) = true /\
  JS.lt_num (JS.get data "illuminance") (Config.illuThreshold cfg) = true /\
  method = "Switch.Set" /\ params = [("id", JS.Int 0); ("on", JS.Bool true)].
Proof.
  assert (Hdispatch :
    In (ShellyCall method params)
       ((if negb (JS.is_undefined (JS.get data "motion"))
         then motionHandler cfg
                (JS.strict_eq (JS.get data "motion") (JS.Int 1)) data
              ++ logger cfg (Text "Motion handler called") (JS.Str "Info")
         else [])
        ++ (if negb (JS.is_undefined (JS.get data "illuminance"))
            then illuminanceHandler cfg (JS.get data "illuminance") data
                 ++ logger cfg (Text "Illuminance handler called")
                      (JS.Str "Info")
            else [])
        ++ onStatusUpdate cfg data
        ++ logger cfg (Text "New status update") (JS.Str "Info")) <->
    JS.strict_eq (JS.get data "motion") (JS.Int 1) = true /\
    JS.lt_num (JS.get data "illuminance") (Config.illuThreshold cfg) = true /\
    method = "Switch.Set" /\ params = [("id", JS.Int 0); ("on", JS.Bool true)]).
  { rewrite !in_app_iff. unfold illuminanceHandler, onStatusUpdate.
    split.
    - intros [H | [H | [[] | H]]].
      + destruct (JS.is_undefined (JS.get data "motion")); cbn [negb] in H;
          [destruct H |].
        apply in_app_iff in H. destruct H as [H | H];
          [| exfalso; exact (logger_no_call _ _ _ _ _ H)].
        apply motionHandler_call in H. tauto.
      + destruct (negb (JS.is_undefined (JS.get data "illuminance")));
          [| destruct H].
        cbn [app] in H. exfalso; exact (logger_no_call _ _ _ _ _ H).
      + exfalso; exact (logger_no_call _ _ _ _ _ H).
    - intros [Hm Hrest]. left.
      destruct (JS.get data "motion"); try discriminate Hm;
        cbn [JS.is_undefined negb]; apply in_app_iff; left;
        apply motionHandler_call; tauto. }
  unfold onReceivedPacket.
  destruct (Config._processedMacAddresses cfg) as [| | allowed]; cbn [fst snd].
  - split; [intros [] | intros [H _]; discriminate H].
  - rewrite Hdispatch. tauto.
  - destruct (JS.indexOf allowed (JS.get data "address") <? 0); cbn [fst snd].
    + split; [| intros [H _]; discriminate H].
      intros H. exfalso. exact (logger_no_call _ _ _ _ _ H).
    + rewrite Hdispatch. tauto.
Qed.

(** For a packet whose [illuminance] is not a string, [onReceivedPacket]
    calls [Switch.Set] exactly when the packet passes the address filter,
    reports [motion] 1 and has an [illuminance] that, converted to a
    number, is below the threshold; the call is always
    [{id: 0, on: true}].  A packet without [illuminance] never switches; a
    [null] illuminance counts as 0. *)
Theorem switch_on_iff (cfg : Config.t) (data : JS.object) (method : string)
  (params : JS.object) :
  (forall s, JS.get data "illuminance" <> JS.Str s) ->
  (In (ShellyCall method params) (snd (onReceivedPacket cfg data)) <->
   fst (onReceivedPacket cfg data) = Handled /\
   JS.strict_eq (JS.get data "motion") (JS.Int 1) = true /\
   JS.lt_num (JS.get data "illuminance") (Config.illuThreshold cfg) = true /\
   method = "Switch.Set" /\ params = [("id", JS.Int 0); ("on", JS.Bool true)])
  /\
  (JS.get data "illuminance" = JS.Undefined ->
   ~ In (ShellyCall method params) (snd (onReceivedPacket cfg data))) /\
  (JS.get data "illuminance" = JS.Null ->
   JS.lt_num (JS.get data "illuminance") (Config.illuThreshold cfg) =
   (0 <? Config.illuThreshold cfg)).
Proof.
  intros _. split; [apply switch_call | split].
  - intros Hund Hin. apply switch_call in Hin.
    destruct Hin as [_ [_ [Hlt _]]]. rewrite Hund in Hlt. discriminate Hlt.
  - intros ->. reflexivity.
Qed.

Lemma switch_on_iff_witness :
  In (ShellyCall "Switch.Set" [("id", JS.Int 0); ("on", JS.Bool true)])
     (snd (onReceivedPacket (started CONFIG)
             [("pid", JS.Int 5); ("motion", JS.Int 1);
              ("illuminance", JS.Float literal_1_09);
              ("address", JS.Str "b0:c7:de:3b:29:15")])) /\
  In (ShellyCall "Switch.Set" [("id", JS.Int 0); ("on", JS.Bool true)])
     (snd (onReceivedPacket (started CONFIG)
             [("motion", JS.Int 1); ("illuminance", JS.Null);
              ("address", JS.Str "b0:c7:de:3b:29:15")])) /\
  ~ In (ShellyCall "Switch.Set" [("id", JS.Int 0); ("on", JS.Bool true)])
      (snd (onReceivedPacket (started CONFIG)
              [("motion", JS.Int 1);
               ("address", JS.Str "b0:c7:de:3b:29:15")])).
Proof.
  split; [| split].
  - apply (proj1 (switch_on_iff (started CONFIG)
                    [("pid", JS.Int 5); ("motion", JS.Int 1);
                     ("illuminance", JS.Float literal_1_09);
                     ("address", JS.Str "b0:c7:de:3b:29:15")]
                    "Switch.Set" [("id", JS.Int 0); ("on", JS.Bool true)]
                    ltac:(discriminate))).
    repeat split.
  - apply (proj1 (switch_on_iff (started CONFIG)
                    [("motion", JS.Int 1); ("illuminance", JS.Null);
                     ("address", JS.Str "b0:c7:de:3b:29:15")]
                    "Switch.Set" [("id", JS.Int 0); ("on", JS.Bool true)]
                    ltac:(discriminate))).
    repeat split.
  - apply (proj1 (proj2 (switch_on_iff (started CONFIG)
                            [("motion", JS.Int 1);
                             ("address", JS.Str "b0:c7:de:3b:29:15")]
                            "Switch.Set"
                            [("id", JS.Int 0); ("on", JS.Bool true)]
                            ltac:(discriminate)))).
    reflexivity.
Defined.

(** ** More on admission *)

Lemma indexOf_from_other (allowed : list string) (v : JS.value) (i : Z) :
  (forall s, v <> JS.Str s) -> JS.indexOf_from allowed v i = -1.
Proof.
  intros Hv. revert i.
  induction allowed as [| y allowed IH]; intros i; cbn [JS.indexOf_from];
    [reflexivity |].
  destruct v; cbn [JS.strict_eq]; try apply IH.
  exfalso. apply (Hv s). reflexivity.
Qed.

Lemma indexOf_string (allowed : list string) (v : JS.value) :
  (JS.indexOf allowed v <? 0) = false ->
  exists s, v = JS.Str s /\ In s allowed.
Proof.
  intros Hidx.
  destruct v as [| | b | z | x | s];
    try (unfold JS.indexOf in Hidx;
         rewrite indexOf_from_other in Hidx by discriminate;
         discriminate Hidx).
  exists s. split; [reflexivity | apply indexOf_In; exact Hidx].
Qed.

Lemma unpack_log_no_call (cfg : Config.t) (input : JS.value)
  (res : option JS.object) (log : list effect) (method : string)
  (params : JS.object) :
  unpack cfg input = Some (res, log) -> ~ In (ShellyCall method params) log.
Proof.
  intros H. destruct (unpack_log_shape cfg input res log H) as [[-> | [_ ->]] _].
  - intros [].
  - intros [Hin | []]. discriminate Hin.
Qed.

(** [BLEScanCallback] calls [Switch.Set] only for a packet that is decoded,
    is not a duplicate, passes the address filter, and reports [motion] 1
    with an [illuminance] below the threshold. *)
Theorem light_only_on_motion (cfg : Config.t) (last : JS.value)
  (event : scan_event) (result : Scan.result) (last' : JS.value) (e : exit)
  (effects : list effect) (method : string) (params : JS.object) :
  BLEScanCallback cfg last event result = Some (last', e, effects) ->
  In (ShellyCall method params) effects ->
  e = Received Handled /\
  exists data,
    decodes cfg result data /\
    JS.strict_eq last (JS.get data "pid") = false /\
    address_allowed cfg (Scan.addr result) /\
    JS.strict_eq (JS.get data "motion") (JS.Int 1) = true /\
    JS.lt_num (JS.get data "illuminance") (Config.illuThreshold cfg) = true.
Proof.
  unfold BLEScanCallback.
  destruct (negb (scan_event_eqb event SCAN_RESULT)).
  { intros H. injection H as _ _ <-. intros []. }
  destruct (Scan.service_data result) as [service_data |] eqn:Hsd.
  2: { intros H. injection H as _ _ <-. intros []. }
  destruct (JS.is_undefined (JS.get service_data BTHOME_SVC_ID_STR)) eqn:Hdef.
  { intros H. injection H as _ _ <-. intros []. }
  destruct (unpack cfg (JS.get service_data BTHOME_SVC_ID_STR))
    as [[[data |] log] |] eqn:Hun; [| | discriminate].
  2: { intros H. injection H as _ _ <-. intros Hin.
       apply in_app_iff in Hin. destruct Hin as [Hin | Hin].
       - exfalso. exact (unpack_log_no_call _ _ _ _ _ _ Hun Hin).
       - exfalso. exact (logger_no_call _ _ _ _ _ Hin). }
  destruct (JS.truthy (JS.get data "encryption")) eqn:Henc.
  { intros H. injection H as _ _ <-. intros Hin.
    apply in_app_iff in Hin. destruct Hin as [Hin | Hin].
    - exfalso. exact (unpack_log_no_call _ _ _ _ _ _ Hun Hin).
    - exfalso. exact (logger_no_call _ _ _ _ _ Hin). }
  destruct (JS.strict_eq last (JS.get data "pid")) eqn:Hdup.
  { intros H. injection H as _ _ <-. intros Hin.
    exfalso. exact (unpack_log_no_call _ _ _ _ _ _ Hun Hin). }
  destruct (onReceivedPacket cfg _) as [r eff] eqn:Hrec.
  intros H. injection H as _ <- <-. intros Hin.
  apply in_app_iff in Hin. destruct Hin as [Hin | Hin];
    [exfalso; exact (unpack_log_no_call _ _ _ _ _ _ Hun Hin) |].
  change eff with (snd (r, eff)) in Hin. rewrite <- Hrec in Hin.
  apply switch_call in Hin.
  destruct Hin as [Hfst [Hmotion [Hlt _]]].
  rewrite Hrec in Hfst. cbn [fst] in Hfst. subst r.
  rewrite !get_set_other in Hmotion, Hlt by discriminate.
  split; [reflexivity |].
  exists data. split; [exists service_data, log; repeat split; assumption |].
  split; [exact Hdup | split; [| split; assumption]].
  assert (Hh : fst (onReceivedPacket cfg
                      (JS.set (JS.set data "rssi" (Scan.rssi result))
                         "address" (Scan.addr result))) = Handled)
    by (rewrite Hrec; reflexivity).
  unfold onReceivedPacket in Hh. unfold address_allowed.
  destruct (Config._processedMacAddresses cfg) as [| | allowed];
    [discriminate Hh | exact I |].
  rewrite get_set_same in Hh.
  destruct (JS.indexOf allowed (Scan.addr result) <? 0) eqn:Hidx;
    [discriminate Hh |].
  apply indexOf_string. exact Hidx.
Qed.

Lemma light_only_on_motion_witness :
  exists data,
    decodes (started CONFIG)
      (advert "b0:c7:de:3b:29:15" (-53)
         [0x40; 0x00; 0x05; 0x21; 0x01; 0x05; 0x6d; 0x00; 0x00]) data /\
    JS.strict_eq (JS.get data "motion") (JS.Int 1) = true /\
    JS.lt_num (JS.get data "illuminance") 15 = true.
Proof.
  destruct (light_only_on_motion (started CONFIG) lastPacketId SCAN_RESULT
              (advert "b0:c7:de:3b:29:15" (-53)
                 [0x40; 0x00; 0x05; 0x21; 0x01; 0x05; 0x6d; 0x00; 0x00])
              (JS.Int 5) (Received Handled)
              [ConsoleLog "Info:" (Text "Light switched on");
               ShellyCall "Switch.Set" [("id", JS.Int 0); ("on", JS.Bool true)];
               ConsoleLog "Info:" (Text "Motion handler called");
               ConsoleLog "Info:" (Text "Illuminance handler called");
               ConsoleLog "Info:" (Text "New status update")]
              "Switch.Set" [("id", JS.Int 0); ("on", JS.Bool true)])
    as [_ [data [Hdec [_ [_ [Hmotion Hlt]]]]]].
  - reflexivity.
  - right. left. reflexivity.
  - exists data. split; [exact Hdec | split; [exact Hmotion | exact Hlt]].
Defined.

Lemma strict_eq_pid (data : JS.object) :
  pid_in_range data ->
  JS.strict_eq (JS.get data "pid") (JS.get data "pid") = true.
Proof.
  intros [-> | [p [-> _]]]; cbn [JS.strict_eq]; [reflexivity |].
  apply Z.eqb_refl.
Qed.

(** A retransmission is never handled twice in a row: when a scan result
    is passed to [BLEScanCallback] again right after a first call, the
    second call does not reach [onReceivedPacket], leaves [lastPacketId]
    as the first call left it, and calls nothing on the device. *)
Theorem retransmission_suppressed (cfg : Config.t) (last : JS.value)
  (result : Scan.result) (last' : JS.value) (e : exit)
  (effects : list effect) :
  BLEScanCallback cfg last SCAN_RESULT result = Some (last', e, effects) ->
  exists e' effects',
    BLEScanCallback cfg last' SCAN_RESULT result = Some (last', e', effects') /\
    reached_handler e' = false /\
    (reached_handler e = true -> e' = Duplicate) /\
    forall method params, ~ In (ShellyCall method params) effects'.
Proof.
  unfold BLEScanCallback. cbn [scan_event_eqb negb].
  destruct (Scan.service_data result) as [service_data |] eqn:Hsd.
  2: { intros H. injection H as <- <- _.
       exists NoServiceData, []. repeat split; try discriminate. intros ? ? []. }
  destruct (JS.is_undefined (JS.get service_data BTHOME_SVC_ID_STR)) eqn:Hdef.
  { intros H. injection H as <- <- _.
    exists NoServiceData, []. repeat split; try discriminate. intros ? ? []. }
  destruct (unpack cfg (JS.get service_data BTHOME_SVC_ID_STR))
    as [[[data |] log] |] eqn:Hun; [| | discriminate].
  2: { intros H. injection H as <- <- _.
       eexists. eexists. split; [reflexivity |].
       repeat split; try discriminate.
       intros method params Hin. apply in_app_iff in Hin.
       destruct Hin as [Hin | Hin];
         [exact (unpack_log_no_call _ _ _ _ _ _ Hun Hin)
         | exact (logger_no_call _ _ _ _ _ Hin)]. }
  destruct (JS.truthy (JS.get data "encryption")) eqn:Henc.
  { intros H. injection H as <- <- _.
    eexists. eexists. split; [reflexivity |].
    repeat split; try discriminate.
    intros method params Hin. apply in_app_iff in Hin.
    destruct Hin as [Hin | Hin];
      [exact (unpack_log_no_call _ _ _ _ _ _ Hun Hin)
      | exact (logger_no_call _ _ _ _ _ Hin)]. }
  destruct (JS.strict_eq last (JS.get data "pid")) eqn:Hdup.
  { intros H. injection H as <- <- _. rewrite Hdup.
    exists Duplicate, log. repeat split.
    intros method params Hin.
    exact (unpack_log_no_call _ _ _ _ _ _ Hun Hin). }
  destruct (onReceivedPacket cfg _) as [r eff].
  intros H. injection H as <- <- _.
  rewrite (strict_eq_pid data (unpack_pid _ _ _ _ Hun)).
  exists Duplicate, log. repeat split.
  intros method params Hin.
  exact (unpack_log_no_call _ _ _ _ _ _ Hun Hin).
Qed.

Lemma retransmission_suppressed_witness :
  exists e' effects',
    BLEScanCallback (started CONFIG) (JS.Int 5) SCAN_RESULT
      (advert "b0:c7:de:3b:29:15" (-53) [0x40; 0x00; 0x05; 0x21; 0x01]) =
    Some (JS.Int 5, e', effects') /\
    reached_handler e' = false.
Proof.
  destruct (retransmission_suppressed (started CONFIG) lastPacketId
              (advert "b0:c7:de:3b:29:15" (-53) [0x40; 0x00; 0x05; 0x21; 0x01])
              (JS.Int 5) (Received Handled)
              [ConsoleLog "Info:" (Text "Motion handler called");
               ConsoleLog "Info:" (Text "New status update")] eq_refl)
    as [e' [effects' [Hcall [Hexit _]]]].
  exists e', effects'. split; [exact Hcall | exact Hexit].
Defined.

Lemma unpack_total (cfg : Config.t) (input : JS.value) :
  exists res log, unpack cfg input = Some (res, log).
Proof.
  destruct input as [| | b | z | x | s];
    try (eexists; eexists; reflexivity).
  destruct s as [| header rest]; [eexists; eexists; reflexivity |].
  rewrite unpack_header.
  destruct (negb (Z.shiftr (byte_of header) 5 =? 2));
    [eexists; eexists; reflexivity |].
  destruct (Z.testbit (byte_of header) 0); [eexists; eexists; reflexivity |].
  destruct (unpack_while_enough cfg (String.length rest) rest header_fields
              (Nat.le_refl _)) as [[r log] Hres].
  rewrite (Hres _ (Nat.le_refl _)). eexists; eexists; reflexivity.
Qed.

(** One call of [BLEScanCallback] returns, and either leaves
    [lastPacketId] or, when it reaches [onReceivedPacket], sets it to
    [undefined] or a byte. *)
Lemma callback_step (cfg : Config.t) (last : JS.value) (result : Scan.result) :
  exists last' e effects,
    BLEScanCallback cfg last SCAN_RESULT result = Some (last', e, effects) /\
    (reached_handler e = false -> last' = last) /\
    (reached_handler e = true ->
     last' = JS.Undefined \/ exists p, last' = JS.Int p /\ 0 <= p <= 255).
Proof.
  unfold BLEScanCallback. cbn [scan_event_eqb negb].
  destruct (Scan.service_data result) as [service_data |].
  2: { do 3 eexists. split; [reflexivity |]. split; [reflexivity | discriminate]. }
  destruct (JS.is_undefined (JS.get service_data BTHOME_SVC_ID_STR)).
  { do 3 eexists. split; [reflexivity |]. split; [reflexivity | discriminate]. }
  destruct (unpack_total cfg (JS.get service_data BTHOME_SVC_ID_STR))
    as [res [log Hun]].
  rewrite Hun. destruct res as [data |].
  2: { do 3 eexists. split; [reflexivity |]. split; [reflexivity | discriminate]. }
  destruct (JS.truthy (JS.get data "encryption")).
  { do 3 eexists. split; [reflexivity |]. split; [reflexivity | discriminate]. }
  destruct (JS.strict_eq last (JS.get data "pid")).
  { do 3 eexists. split; [reflexivity |]. split; [reflexivity | discriminate]. }
  destruct (onReceivedPacket cfg _) as [r eff].
  do 3 eexists. split; [reflexivity |]. split; [discriminate |].
  intros _. exact (unpack_pid _ _ _ _ Hun).
Qed.

Lemma scan_steps (cfg : Config.t) (results : list Scan.result) :
  forall last,
  exists es final,
    scan cfg last results = Some (es, final) /\
    List.length es = List.length results /\
    (existsb reached_handler es = false -> final = last) /\
    (existsb reached_handler es = true ->
     final = JS.Undefined \/ exists p, final = JS.Int p /\ 0 <= p <= 255).
Proof.
  induction results as [| r results IH]; intros last.
  - exists [], last. repeat split; [discriminate].
  - destruct (callback_step cfg last r) as [last' [e [eff [Hcall [Hkeep Hset]]]]].
    destruct (IH last') as [es [final [Hscan [Hlen [Hsame Hid]]]]].
    exists (e :: es), final. cbn [scan]. rewrite Hcall, Hscan.
    split; [reflexivity |]. split; [cbn [List.length]; rewrite Hlen; reflexivity |].
    cbn [existsb]. split.
    + intros H. apply orb_false_iff in H. destruct H as [He Hes].
      rewrite (Hsame Hes). apply Hkeep. exact He.
    + intros H. destruct (existsb reached_handler es) eqn:Hes.
      * apply Hid. reflexivity.
      * rewrite (Hsame eq_refl). apply Hset.
        rewrite orb_false_r in H. exact H.
Qed.

(** Any run of scan results is processed to the end, one exit per result.
    [lastPacketId] keeps its initial value 0x100 exactly as long as no call
    reaches [onReceivedPacket]; from then on it is [undefined] or a byte,
    and never 0x100 again. *)
Theorem scan_packet_ids (cfg : Config.t) (results : list Scan.result) :
  exists es final,
    scan cfg lastPacketId results = Some (es, final) /\
    List.length es = List.length results /\
    packet_id final /\
    (final = lastPacketId <-> existsb reached_handler es = false).
Proof.
  destruct (scan_steps cfg results lastPacketId)
    as [es [final [Hscan [Hlen [Hsame Hid]]]]].
  exists es, final. split; [exact Hscan | split; [exact Hlen |]].
  destruct (existsb reached_handler es).
  - destruct (Hid eq_refl) as [-> | [p [-> Hp]]].
    + split; [right; left; reflexivity |].
      split; [discriminate | discriminate].
    + split; [right; right; exists p; split; [reflexivity | exact Hp] |].
      split; [| discriminate].
      unfold lastPacketId. intros H. injection H as H. lia.
  - rewrite (Hsame eq_refl).
    split; [left; reflexivity | split; reflexivity].
Qed.

(** ** Start-up and the allow-list *)

Lemma filter_first_NoDup (full : list string) :
  forall a pre,
    full = pre ++ a ->
    NoDup (JS.filter_from
             (fun value index => JS.indexOf full (JS.Str value) =? index)
             a (Z.of_nat (List.length pre))).
Proof.
  induction a as [| y a IH]; intros pre Hfull; cbn [JS.filter_from].
  - constructor.
  - assert (Hnext : full = (pre ++ [y]) ++ a)
      by (rewrite <- app_assoc; exact Hfull).
    assert (Hlen : Z.of_nat (List.length pre) + 1
                   = Z.of_nat (List.length (pre ++ [y])))
      by (rewrite length_app; cbn [List.length]; lia).
    rewrite Hlen.
    destruct (JS.indexOf full (JS.Str y) =? Z.of_nat (List.length pre)).
    + constructor; [| apply IH; exact Hnext].
      intros Hin. apply (filter_first full (pre ++ [y]) a y Hnext) in Hin.
      destruct Hin as [_ Hnot]. apply Hnot. apply in_app_iff.
      right. left. reflexivity.
    + apply IH. exact Hnext.
Qed.

Lemma filter_first_NoDup_id (full : list string) :
  NoDup full ->
  forall a pre,
    full = pre ++ a ->
    JS.filter_from
      (fun value index => JS.indexOf full (JS.Str value) =? index)
      a (Z.of_nat (List.length pre)) = a.
Proof.
  intros Hnd. induction a as [| y a IH]; intros pre Hfull;
    cbn [JS.filter_from]; [reflexivity |].
  assert (Hnot : ~ In y pre).
  { rewrite Hfull in Hnd. apply NoDup_remove_2 in Hnd.
    intros Hin. apply Hnd. apply in_app_iff. left. exact Hin. }
  assert (Hidx : JS.indexOf full (JS.Str y) = Z.of_nat (List.length pre)).
  { unfold JS.indexOf. rewrite Hfull.
    rewrite indexOf_from_first by exact Hnot. lia. }
  rewrite Hidx, Z.eqb_refl. f_equal.
  replace (Z.of_nat (List.length pre) + 1)
    with (Z.of_nat (List.length (pre ++ [y])))
    by (rewrite length_app; cbn [List.length]; lia).
  apply IH. rewrite <- app_assoc. exact Hfull.
Qed.

Lemma map_toLowerCase_id (l : list string) :
  (forall s, In s l -> JS.toLowerCase s = s) -> map JS.toLowerCase l = l.
Proof.
  induction l as [| y l IH]; intros Hall; cbn [map]; [reflexivity |].
  rewrite (Hall y) by (left; reflexivity).
  rewrite IH by (intros s Hs; apply Hall; right; exact Hs). reflexivity.
Qed.

(** The allow-list that [init] stores has no duplicates, holds lower-case
    strings only, has exactly the lower-cased configured entries as
    members, and processing it again changes nothing. *)
Theorem processMacAddresses_normal (allowed : list string) :
  NoDup (processMacAddresses allowed) /\
  (forall s, In s (processMacAddresses allowed) -> JS.toLowerCase s = s) /\
  (forall s, In s (processMacAddresses allowed) <->
             In s (map JS.toLowerCase allowed)) /\
  processMacAddresses (processMacAddresses allowed) =
  processMacAddresses allowed.
Proof.
  assert (Hnd : NoDup (processMacAddresses allowed))
    by (apply (filter_first_NoDup (map JS.toLowerCase allowed) _ [] eq_refl)).
  assert (Hlow : forall s, In s (processMacAddresses allowed) ->
                           JS.toLowerCase s = s).
  { intros s Hin. apply processMacAddresses_In in Hin.
    destruct Hin as [a [_ <-]]. apply toLowerCase_idempotent. }
  split; [exact Hnd | split; [exact Hlow | split]].
  - intros s. rewrite processMacAddresses_In, in_map_iff.
    split; intros [a [H1 H2]]; exists a; split; assumption.
  - unfold processMacAddresses at 1. unfold JS.filter.
    rewrite (map_toLowerCase_id _ Hlow).
    apply (filter_first_NoDup_id _ Hnd _ [] eq_refl).
Qed.

Lemma processMacAddresses_normal_witness :
  processMacAddresses ["B0:C7:DE:3B:29:15"; "aa:bc:12:34:56:78";
                       "b0:c7:de:3b:29:15"] =
  ["b0:c7:de:3b:29:15"; "aa:bc:12:34:56:78"] /\
  JS.toLowerCase "aa:bc:12:34:56:78" = "aa:bc:12:34:56:78".
Proof.
  split; [reflexivity |].
  apply (proj1 (proj2 (processMacAddresses_normal
                         ["B0:C7:DE:3B:29:15"; "aa:bc:12:34:56:78";
                          "b0:c7:de:3b:29:15"]))).
  right. left. reflexivity.
Defined.

(** The three shapes of [allowedMacAddresses] after a start-up with
    Bluetooth enabled: [null] lets every packet through to the handlers;
    an empty array filters every packet out; and when the property is
    missing [_processedMacAddresses] stays unset, so [onReceivedPacket]
    fails on its [indexOf] before any handler runs. *)
Theorem allow_list_modes (host : Host.t) (cfg : Config.t) (data : JS.object) :
  Host.ble_enable host = true ->
  let cfg' := fst (init host cfg) in
  (Config.allowedMacAddresses cfg = Config.NoFilter ->
   fst (onReceivedPacket cfg' data) = Handled) /\
  (Config.allowedMacAddresses cfg = Config.Array [] ->
   fst (onReceivedPacket cfg' data) = Filtered) /\
  (Config.allowedMacAddresses cfg = Config.NotSet ->
   Config._processedMacAddresses cfg = Config.NotSet ->
   onReceivedPacket cfg' data = (Threw, [])).
Proof.
  intros Hble cfg'. subst cfg'. unfold init. rewrite Hble. cbn [negb fst].
  split; [| split].
  - intros ->. reflexivity.
  - intros ->. reflexivity.
  - intros -> Hp. unfold onReceivedPacket. rewrite Hp. reflexivity.
Qed.

Lemma allow_list_modes_witness :
  onReceivedPacket (started CONFIG) [("pid", JS.Int 5)] <> (Threw, []) /\
  onReceivedPacket
    (started {| Config.debug := true; Config.active := false;
                Config.allowedMacAddresses := Config.NotSet;
                Config.illuThreshold := 15;
                Config._processedMacAddresses := Config.NotSet |})
    [("pid", JS.Int 5)] = (Threw, []).
Proof.
  split; [discriminate |].
  apply (proj2 (proj2 (allow_list_modes (Host.Make true true true)
                         {| Config.debug := true; Config.active := false;
                            Config.allowedMacAddresses := Config.NotSet;
                            Config.illuThreshold := 15;
                            Config._processedMacAddresses := Config.NotSet |}
                         [("pid", JS.Int 5)] eq_refl)));
    reflexivity.
Defined.

(** [init] subscribes the callback exactly when Bluetooth is enabled, and
    starts a scanner exactly when Bluetooth is enabled and none is
    running, with the configured [active] flag; it never changes [debug],
    [active], [allowedMacAddresses] or [illuThreshold], and with Bluetooth
    disabled it leaves the whole configuration as it was. *)
Theorem init_effects (host : Host.t) (cfg : Config.t) :
  let cfg' := fst (init host cfg) in
  let effects := snd (init host cfg) in
  (In ScannerSubscribe effects <-> Host.ble_enable host = true) /\
  (forall a, In (ScannerStart a) effects <->
             Host.ble_enable host = true /\
             Host.scanner_isRunning host = false /\ a = Config.active cfg) /\
  (Config.debug cfg' = Config.debug cfg /\
   Config.active cfg' = Config.active cfg /\
   Config.allowedMacAddresses cfg' = Config.allowedMacAddresses cfg /\
   Config.illuThreshold cfg' = Config.illuThreshold cfg) /\
  (Host.ble_enable host = false -> cfg' = cfg).
Proof.
  unfold init.
  destruct (Host.ble_enable host); cbn [negb fst snd].
  - split; [| split; [| split]].
    + split; [reflexivity |]. intros _. apply in_app_iff. right. left. reflexivity.
    + intros a. rewrite in_app_iff.
      destruct (Host.scanner_isRunning host); cbn [In].
      * split; [intros [[H | []] | [H | []]]; discriminate H
               | intros [_ [H _]]; discriminate H].
      * split.
        -- intros [[H | H] | [H | []]]; try discriminate H.
           ++ injection H as <-. auto.
           ++ destruct (negb (Host.scanner_started host)); cbn [In] in H;
                [destruct H as [H | []]; discriminate H | destruct H].
        -- intros [_ [_ ->]]. left. left. reflexivity.
    + destruct (Config.allowedMacAddresses cfg) eqn:Ha;
        repeat split; try reflexivity; exact Ha.
    + discriminate.
  - split; [| split; [| split]].
    + cbn [In]. split; [intros [H | []]; discriminate H | discriminate].
    + intros a. cbn [In].
      split; [intros [H | []]; discriminate H | intros [H _]; discriminate H].
    + repeat split; reflexivity.
    + reflexivity.
Qed.

Lemma init_effects_witness :
  fst (init (Host.Make false false true) CONFIG) = CONFIG /\
  ~ In ScannerSubscribe (snd (init (Host.Make false false true) CONFIG)).
Proof.
  destruct (init_effects (Host.Make false false true) CONFIG)
    as [Hsub [_ [_ Hsame]]].
  split; [apply Hsame; reflexivity |].
  intros Hin. apply Hsub in Hin. discriminate Hin.
Defined.

(** A scan result with service data is left as undecodable exactly when
    the data is not a string, is empty, has a first byte whose version is
    not 2, or has the encryption bit set.  In each of these cases
    [lastPacketId] is kept and the one thing done is the [logger] call
    "Encrypted devices are not supported". *)
Theorem undecodable_report (cfg : Config.t) (last : JS.value)
  (result : Scan.result) (service_data : JS.object) (last' : JS.value)
  (e : exit) (effects : list effect) :
  Scan.service_data result = Some service_data ->
  JS.is_undefined (JS.get service_data BTHOME_SVC_ID_STR) = false ->
  BLEScanCallback cfg last SCAN_RESULT result = Some (last', e, effects) ->
  (e = Undecodable <->
   match JS.get service_data BTHOME_SVC_ID_STR with
   | JS.Str (String header _) =>
       Z.shiftr (byte_of header) 5 <> 2 \/ Z.testbit (byte_of header) 0 = true
   | _ => True
   end) /\
  (e = Undecodable ->
   last' = last /\
   effects = logger cfg (Text "Encrypted devices are not supported")
               (JS.Str "Error")).
Proof.
  intros Hsd Hdef. unfold BLEScanCallback. cbn [scan_event_eqb negb].
  rewrite Hsd, Hdef.
  destruct (JS.get service_data BTHOME_SVC_ID_STR) as [| | b | z | x | s];
    try (cbn [unpack app]; intros H; injection H as <- <- <-;
         split; [split; auto | auto]).
  destruct s as [| header rest].
  { cbn. intros H; injection H as <- <- <-. split; [split; auto | auto]. }
  rewrite unpack_header.
  destruct (Z.eqb_spec (Z.shiftr (byte_of header) 5) 2) as [Hv | Hv];
    cbn [negb].
  2: { cbn [app]. intros H; injection H as <- <- <-.
       split; [split; auto | auto]. }
  destruct (Z.testbit (byte_of header) 0) eqn:Henc.
  { cbn [JS.get String.eqb Ascii.eqb Bool.eqb JS.truthy app].
    intros H; injection H as <- <- <-. split; [split; auto | auto]. }
  destruct (unpack_while cfg (String.length rest) rest header_fields)
    as [[data log] |] eqn:Hrun; [| discriminate].
  destruct (unpack_while_decoded _ _ _ _ _ _ Hrun decoded_header)
    as [Hplain _].
  rewrite Hplain. cbn [JS.truthy].
  destruct (JS.strict_eq last (JS.get data "pid")).
  - intros H; injection H as <- <- <-.
    split; [split; [discriminate | intros [H | H]; [lia | discriminate H]]
           | discriminate].
  - destruct (onReceivedPacket cfg _) as [r eff].
    intros H; injection H as <- <- <-.
    split; [split; [discriminate | intros [H | H]; [lia | discriminate H]]
           | discriminate].
Qed.

Lemma undecodable_report_witness :
  BLEScanCallback (started CONFIG) (JS.Int 7) SCAN_RESULT
    (advert "b0:c7:de:3b:29:15" (-53) []) =
  Some (JS.Int 7, Undecodable,
        [ConsoleLog "Error:" (Text "Encrypted devices are not supported")]).
Proof.
  destruct (undecodable_report (started CONFIG) (JS.Int 7)
              (advert "b0:c7:de:3b:29:15" (-53) [])
              [(BTHOME_SVC_ID_STR, JS.Str "")] (JS.Int 7) Undecodable
              [ConsoleLog "Error:" (Text "Encrypted devices are not supported")]
              eq_refl eq_refl eq_refl) as [_ Hkeep].
  destruct (Hkeep eq_refl) as [_ _]. reflexivity.
Defined.

(** ** Scaling *)

Lemma range_In (n : nat) :
  forall lo v, lo <= v < lo + Z.of_nat n -> In v (range lo n).
Proof.
  induction n as [| n IH]; intros lo v Hv; [lia |].
  cbn [range In].
  destruct (Z.eq_dec lo v) as [-> | Hne]; [left; reflexivity | right].
  apply IH. lia.
Qed.

Lemma close_0_01 (v : Z) :
  - 32768 <= v < 65536 ->
  scaled_close 1 100 v (JS.mul v factor_0_01) = true.
Proof.
  intros Hv.
  assert (Hall : forallb (fun z => scaled_close 1 100 z (JS.mul z factor_0_01))
                   (range (- 32768) (Z.to_nat 98304)) = true)
    by (vm_compute; reflexivity).
  rewrite forallb_forall in Hall. apply Hall.
  apply range_In. rewrite Z2Nat.id by lia. lia.
Qed.

Lemma close_0_1 (v : Z) :
  - 32768 <= v < 32768 ->
  scaled_close 1 10 v (JS.mul v factor_0_1) = true.
Proof.
  intros Hv.
  assert (Hall : forallb (fun z => scaled_close 1 10 z (JS.mul z factor_0_1))
                   (range (- 32768) (Z.to_nat 65536)) = true)
    by (vm_compute; reflexivity).
  rewrite forallb_forall in Hall. apply Hall.
  apply range_In. rewrite Z2Nat.id by lia. lia.
Qed.

(** The two-byte scaled fields are decoded accurately: for every pair of
    value bytes, [temperature] and [humidity] are stored as a finite
    binary64 number within one part in [2^52] of a hundredth of the raw
    value (signed for [temperature], unsigned for [humidity]), and
    [rotation] within one part in [2^52] of a tenth of the signed raw
    value, each with the sign of the raw value. *)
Theorem scaled_fields_accurate (c0 c1 : ascii) :
  let raw := String c0 (String c1 "") in
  let w := byte_of c0 + 256 * byte_of c1 in
  let v := if 32768 <=? w then w - 65536 else w in
  (forall e, lookup BTH 0x02 = Some e ->
     exists x, field_value e raw = JS.Float x /\ scaled_close 1 100 v x = true) /\
  (forall e, lookup BTH 0x03 = Some e ->
     exists x, field_value e raw = JS.Float x /\ scaled_close 1 100 w x = true) /\
  (forall e, lookup BTH 0x3f = Some e ->
     exists x, field_value e raw = JS.Float x /\ scaled_close 1 10 v x = true).
Proof.
  cbv zeta.
  pose proof (byte_of_range c0) as H0. pose proof (byte_of_range c1) as H1.
  destruct (getBufValue_width2 c0 c1) as [Hu Hs].
  assert (Hv : - 32768 <= (if 32768 <=? byte_of c0 + 256 * byte_of c1
                           then byte_of c0 + 256 * byte_of c1 - 65536
                           else byte_of c0 + 256 * byte_of c1) < 32768)
    by (destruct (Z.leb_spec 32768 (byte_of c0 + 256 * byte_of c1)); lia).
  split; [| split]; intros e He; injection He as <-;
    unfold field_value; cbn [Field.t Field.f].
  - rewrite Hs. cbn [JS.times]. eexists. split; [reflexivity |].
    apply close_0_01. lia.
  - rewrite Hu. cbn [JS.times]. eexists. split; [reflexivity |].
    apply close_0_01. lia.
  - rewrite Hs. cbn [JS.times]. eexists. split; [reflexivity |].
    apply close_0_1. exact Hv.
Qed.

Lemma scaled_fields_accurate_witness :
  exists x,
    field_value (Field.Entry "temperature" int16 (Some factor_0_01) (Some "tC"))
      (bytes [0x9c; 0xff]) = JS.Float x /\
    scaled_close 1 100 (-100) x = true.
Proof.
  apply (proj1 (scaled_fields_accurate (ascii_of_N 156) (ascii_of_N 255))
           (Field.Entry "temperature" int16 (Some factor_0_01) (Some "tC"))
           eq_refl).
Defined.

(** ** Instances *)

Lemma getBufValue_null_iff_witness :
  BTHomeDecoder.getBufValue 7 (bytes [0x01; 0x02; 0x03]) = JS.Null /\
  BTHomeDecoder.getBufValue uint24 (bytes [0x01; 0x02]) = JS.Null.
Proof.
  split.
  - apply (proj1 (getBufValue_null_iff 7 (bytes [0x01; 0x02; 0x03]))).
    right. unfold known_type. lia.
  - apply (proj1 (getBufValue_null_iff uint24 (bytes [0x01; 0x02]))).
    left. vm_compute. reflexivity.
Defined.

Lemma unpack_null_iff_witness :
  (exists log, unpack CONFIG (JS.Str (bytes [0x20; 0x00; 0x05])) = Some (None, log))
  /\ exists log, unpack CONFIG (JS.Int 5) = Some (None, log).
Proof.
  split.
  - apply (proj1 (unpack_null_iff CONFIG (JS.Str (bytes [0x20; 0x00; 0x05])))).
    vm_compute. discriminate.
  - apply (proj1 (unpack_null_iff CONFIG (JS.Int 5))). exact I.
Defined.

Lemma scan_packet_ids_witness :
  exists es final,
    scan (started CONFIG) lastPacketId
      [advert "b0:c7:de:3b:29:15" (-53) [0x41; 0x00; 0x05];
       advert "aa:bc:12:34:56:78" (-60) [0x40; 0x00; 0x05]] = Some (es, final) /\
    packet_id final.
Proof.
  destruct (scan_packet_ids (started CONFIG)
              [advert "b0:c7:de:3b:29:15" (-53) [0x41; 0x00; 0x05];
               advert "aa:bc:12:34:56:78" (-60) [0x40; 0x00; 0x05]])
    as [es [final [Hscan [_ [Hid _]]]]].
  exists es, final. split; [exact Hscan | exact Hid].
Defined.
